(** * webassets.merge: hunks, merging and the cache-aware filter tool

    A shallow embedding of [src/webassets/merge.py] and of the [GZip] filter
    of [src/webassets/filter/gzip.py].  Python objects with identity (hunks,
    filters, streams, cache stores) carry an object id; their mutable
    attributes live in an explicit [World], which every effectful function
    threads through the monad [M].  Exceptions are the [Raise] results of
    that monad.  The calls the properties speak about (cache [get] and
    [set], filter methods, [urlopen], body transfers) are appended to the
    log of the world.

    What [merge.py] only calls is a parameter or is modelled from its
    interface: Python's [hash] and [bytes.decode], [Filter.__eq__] and
    [cmp_debug_levels] are section variables; a filter method is a function
    from its input to what it writes to its output stream; [urlopen] is the
    [net] function of the world; the cache store is a keyed map. *)

From Stdlib Require Import ZArith Lia Ascii String.
From stdpp Require Import base option list strings gmap.

Local Open Scope string_scope.
Local Open Scope Z_scope.

(** ** Python values *)

(** The values that flow through hunks and the cache: [None], booleans,
    [str], [bytes] and 2-tuples (the [(etag, last_modified)] pair). *)
Inductive PyVal :=
| VNone
| VBool (b : bool)
| VStr (s : string)
| VBytes (s : string)
| VPair (a b : PyVal).

Global Instance PyVal_eq_dec : EqDecision PyVal.
Proof. solve_decision. Defined.

(** Python's [==] on these values. *)
Definition py_eq (a b : PyVal) : bool := bool_decide (a = b).

(** Python's truth value test. *)
Definition truthy (v : PyVal) : bool :=
  match v with
  | VNone => false
  | VBool b => b
  | VStr s | VBytes s => negb (String.eqb s EmptyString)
  | VPair _ _ => true
  end.

(** [content in (False, None)]. *)
Definition in_False_None (content : PyVal) : bool :=
  py_eq content (VBool false) || py_eq content VNone.

(** The buffer of an [io.StringIO] or [io.BytesIO]. *)
Inductive Content :=
| Text (s : string)
| Bytes (s : string).

(** [stream.getvalue()] / [stream.read()] as a Python value. *)
Definition content_val (c : Content) : PyVal :=
  match c with
  | Text s => VStr s
  | Bytes s => VBytes s
  end.

(** A fresh output stream of the same kind as [d], after the payload [p]
    has been written to it. *)
Definition same_kind (d : Content) (p : string) : Content :=
  match d with
  | Text _ => Text p
  | Bytes _ => Bytes p
  end.

(** ** Filters *)

Definition Kwargs := gmap string PyVal.

(** What a filter method leaves behind: the payload it wrote to its output
    stream, or the message of the exception it raised. *)
Inductive Written :=
| Wrote (payload : string)
| Failed (error : string).

(** Modelled from the spec: the [Filter] class of [webassets.filter], which
    is not part of this module, as far as [merge.py] uses it: identity,
    [name], [max_debug_level] ([VNone] when unset) and the four optional
    methods probed with [getattr(f, type, None)].  A transform receives the
    input stream, a producer the positional arguments; both receive the
    keyword options and write to an output stream supplied by the caller. *)
Record Filter := {
  fid : nat;
  name : string;
  max_debug_level : PyVal;
  input_m : option (Content -> Kwargs -> Written);
  output_m : option (Content -> Kwargs -> Written);
  open_m : option (list PyVal -> Kwargs -> Written);
  concat_m : option (list PyVal -> Kwargs -> Written)
}.

(** [getattr(f, type, None)] for the transform names. *)
Definition getattr_transform (f : Filter) (type : string)
  : option (Content -> Kwargs -> Written) :=
  if String.eqb type "input" then input_m f
  else if String.eqb type "output" then output_m f
  else None.

(** [getattr(f, type, None)] for the producer names. *)
Definition getattr_func (f : Filter) (type : string)
  : option (list PyVal -> Kwargs -> Written) :=
  if String.eqb type "open" then open_m f
  else if String.eqb type "concat" then concat_m f
  else None.

(** [x is y] on filters. *)
Definition same_filter (x y : Filter) : bool := Nat.eqb (fid x) (fid y).

(** ** Exceptions *)

Inductive Exn :=
| AssertionError
| NoFilters
| MoreThanOneFilterError (message : string) (filters : list Filter)
| HTTPError (code : Z)
| URLError
| FileNotFoundError (filename : string)
| UnicodeDecodeError
| TypeError
| ValueError
| AttributeError
| FilterFailure (error : string).

Inductive Result (A : Type) :=
| Ok (a : A)
| Raise (e : Exn).
Arguments Ok {A} a.
Arguments Raise {A} e.

(** ** Hunks *)

(** The environment of a [UrlHunk]: only its [cache] attribute is used. *)
Record Env := { env_cache : option nat }.

(** [MemoryHunk._data]: a value, or an object with a [read] method. *)
Inductive MemData :=
| MVal (v : PyVal)
| MStream (sid : nat).

Inductive HunkKind :=
| FileHunk (filename : string)
| UrlHunk (url : string) (env : option Env)
| MemoryHunk (mdata : MemData) (files : list string).

Record Hunk := { oid : nat; kind : HunkKind }.

(** ** Cache keys, transport, events *)

(** The key tuples built in this module:
    [("hunk", hunk, tuple(filters), type)],
    [("hunk", args, tuple(filters), type, cache_key or [])] and
    [('url', what, url)]. *)
Inductive Key :=
| KApply (hunk : Hunk) (filters : list Filter) (type : string)
| KFunc (args : list PyVal) (filters : list Filter) (type : string)
        (cache_key : list PyVal)
| KUrl (what : string) (url : string).

(** A key as the store holds it: the hunk is represented by its hash. *)
Inductive RKey :=
| RApply (hv : Z) (filters : list Filter) (type : string)
| RFunc (args : list PyVal) (filters : list Filter) (type : string)
        (cache_key : list PyVal)
| RUrl (what : string) (url : string).

Record Request := {
  req_url : string;
  req_headers : list (string * PyVal)
}.

Definition add_header (r : Request) (k : string) (v : PyVal) : Request :=
  {| req_url := req_url r; req_headers := req_headers r ++ [(k, v)] |}.

(** What [urllib.request.urlopen] does with a request: a response, an
    [HTTPError] with its code, or another error.  A response has a body and
    a [headers] object, of which [merge.py] uses the [getheader] method;
    [None] stands for a [headers] object without that method, on which the
    attribute access raises [AttributeError]. *)
Inductive Outcome :=
| Response (body : string) (getheader : option (string -> PyVal))
| HTTPErr (code : Z)
| URLErr.

(** The responses of [urlopen] in Python 3, the only version that has the
    [urllib.request] module [merge.py] imports: [response.headers] is an
    [http.client.HTTPMessage], which offers [get] and [get_all] and has no
    [getheader]. *)
Definition py3_response (body : string) : Outcome := Response body None.

Inductive Event :=
| CacheGet (cid : nat) (k : Key)
| CacheSet (cid : nat) (k : Key) (v : PyVal)
| FilterCall (f : Filter) (type : string)
| UrlOpen (r : Request)
| BodyRead (url : string).

(** ** The world *)

Record World := {
  files : gmap string string;           (* the file system: path -> bytes *)
  net : Request -> Outcome;             (* the network *)
  url_data : gmap nat PyVal;            (* UrlHunk._data, by hunk id *)
  streams : gmap nat Content;           (* unread rest of each stream *)
  stores : gmap nat (list (RKey * PyVal)); (* cache stores, by cache id *)
  next_oid : nat;                       (* next free object id *)
  log : list Event                      (* observable calls, oldest first *)
}.

Definition set_url_data (i : nat) (v : PyVal) (w : World) : World :=
  {| files := files w; net := net w; url_data := <[i := v]> (url_data w);
     streams := streams w; stores := stores w; next_oid := next_oid w;
     log := log w |}.

Definition set_stream (i : nat) (c : Content) (w : World) : World :=
  {| files := files w; net := net w; url_data := url_data w;
     streams := <[i := c]> (streams w); stores := stores w;
     next_oid := next_oid w; log := log w |}.

Definition set_store (i : nat) (s : list (RKey * PyVal)) (w : World) : World :=
  {| files := files w; net := net w; url_data := url_data w;
     streams := streams w; stores := <[i := s]> (stores w);
     next_oid := next_oid w; log := log w |}.

Definition set_file (filename : string) (b : string) (w : World) : World :=
  {| files := <[filename := b]> (files w); net := net w;
     url_data := url_data w; streams := streams w; stores := stores w;
     next_oid := next_oid w; log := log w |}.

Definition bump (w : World) : World :=
  {| files := files w; net := net w; url_data := url_data w;
     streams := streams w; stores := stores w; next_oid := S (next_oid w);
     log := log w |}.

Definition add_event (e : Event) (w : World) : World :=
  {| files := files w; net := net w; url_data := url_data w;
     streams := streams w; stores := stores w; next_oid := next_oid w;
     log := log w ++ [e] |}.

(** ** The monad of effectful Python code *)

Definition M (A : Type) : Type := World -> Result A * World.

Definition ret {A} (a : A) : M A := fun w => (Ok a, w).

Definition raise {A} (e : Exn) : M A := fun w => (Raise e, w).

Definition bind {A B} (m : M A) (k : A -> M B) : M B :=
  fun w =>
    match m w with
    | (Ok a, w') => k a w'
    | (Raise e, w') => (Raise e, w')
    end.

Notation "x <- m ;; k" := (bind m (fun x => k))
  (at level 100, m at next level, right associativity).
Notation "m ;;; k" := (bind m (fun _ => k))
  (at level 100, right associativity).

Definition gets {A} (f : World -> A) : M A := fun w => (Ok (f w), w).

Definition modify (f : World -> World) : M unit := fun w => (Ok tt, f w).

Definition emit (e : Event) : M unit := modify (add_event e).

(** [for x in l: acc = step(acc, x)] with effects. *)
Fixpoint foldM {A B} (step : B -> A -> M B) (l : list A) (acc : B) : M B :=
  match l with
  | [] => ret acc
  | x :: l' => acc' <- step acc x ;; foldM step l' acc'
  end.

(** The line break [merge] falls back to. *)
Definition newline : string := String "010"%char EmptyString.

Section Webassets.

Set Default Proof Using "Type".

(** Python's built-in [hash] on values. *)
Variable hash : PyVal -> Z.

(** [bytes.decode()]; [None] stands for [UnicodeDecodeError]. *)
Variable decode : string -> option string.

(** [Filter.__eq__], which [webassets.filter] defines. *)
Variable Filter_eq : Filter -> Filter -> bool.

(** [webassets.utils.cmp_debug_levels]. *)
Variable cmp_debug_levels : PyVal -> PyVal -> Z.

(** [str.encode()]. *)
Variable encode : string -> string.

(** ** The cache store *)

(** [x == y] as containers apply it to their elements ([x is e or x == e]):
    identity first. *)
Definition filter_same_or_eq (x y : Filter) : bool :=
  same_filter x y || Filter_eq x y.

(** [tuple(a) == tuple(b)] on filter tuples. *)
Fixpoint tuple_eq (a b : list Filter) : bool :=
  match a, b with
  | [], [] => true
  | x :: a', y :: b' => filter_same_or_eq x y && tuple_eq a' b'
  | _, _ => false
  end.

(** Modelled from the spec: the cache store is a collaborator that is not
    part of [merge.py]; it is a key-to-value map with [get] and [set], and
    two keys collide iff all their components are equal, a hunk counting
    through its content identity (its hash). *)
Definition rkey_eq (a b : RKey) : bool :=
  match a, b with
  | RApply h1 f1 t1, RApply h2 f2 t2 =>
      Z.eqb h1 h2 && tuple_eq f1 f2 && String.eqb t1 t2
  | RFunc a1 f1 t1 c1, RFunc a2 f2 t2 c2 =>
      bool_decide (a1 = a2) && tuple_eq f1 f2 && String.eqb t1 t2
      && bool_decide (c1 = c2)
  | RUrl a1 u1, RUrl a2 u2 => String.eqb a1 a2 && String.eqb u1 u2
  | _, _ => false
  end.

(** Modelled from the spec: [get(key)] on the entries of one store; an
    absent key gives [None]. *)
Definition store_get (rk : RKey) (s : list (RKey * PyVal)) : PyVal :=
  match List.find (fun e => rkey_eq rk (fst e)) s with
  | Some e => snd e
  | None => VNone
  end.

(** Modelled from the spec: [set(key, value)] on the entries of one store;
    the new entry replaces the entries of colliding keys. *)
Definition store_set (rk : RKey) (v : PyVal) (s : list (RKey * PyVal))
  : list (RKey * PyVal) :=
  (rk, v) :: List.filter (fun e => negb (rkey_eq rk (fst e))) s.

(** The entries of the store of the cache [cid]. *)
Definition store_of (cid : nat) (w : World) : list (RKey * PyVal) :=
  default [] (stores w !! cid).

Definition cache_lookup (cid : nat) (rk : RKey) : M PyVal :=
  gets (fun w => store_get rk (store_of cid w)).

Definition cache_store (cid : nat) (rk : RKey) (v : PyVal) : M unit :=
  modify (fun w => set_store cid (store_set rk v (store_of cid w)) w).

(** Modelled from the spec: [cache.get(('url', what, url))] and
    [cache.set(('url', what, url), v)]; these keys hold strings only.  The
    [python=True] option of [get] has no counterpart. *)
Definition url_cache_get (cid : nat) (what url : string) : M PyVal :=
  emit (CacheGet cid (KUrl what url)) ;;; cache_lookup cid (RUrl what url).

Definition url_cache_set (cid : nat) (what url : string) (v : PyVal) : M unit :=
  emit (CacheSet cid (KUrl what url) v) ;;; cache_store cid (RUrl what url) v.

(** ** Hunks: [data], [__hash__], [__eq__] *)

(** [stream.read()]: the unread rest, which is then used up. *)
Definition read (sid : nat) : M PyVal :=
  fun w =>
    match streams w !! sid with
    | Some c => (Ok (content_val c), set_stream sid (same_kind c EmptyString) w)
    | None => (Raise ValueError, w)
    end.

(** [self.env and self.env.cache]. *)
Definition env_and_cache (env : option Env) : option nat :=
  match env with
  | Some e => env_cache e
  | None => None
  end.

(** [FileHunk.data]. *)
Definition FileHunk_data (filename : string) : M PyVal :=
  f <- gets (fun w => files w !! filename) ;;
  match f with
  | None => raise (FileNotFoundError filename)
  | Some b =>
      match decode b with
      | Some s => ret (VStr s)
      | None => raise UnicodeDecodeError
      end
  end.

(** [etag, lmod = headers]: a pair, or a [str] of two characters; a value
    that is not iterable gives a [TypeError], one of another length a
    [ValueError].  The items of a [bytes] value are integers, which [PyVal]
    does not have: it is treated as a value of another length. *)
Definition unpack2 (headers : PyVal) : M (PyVal * PyVal) :=
  match headers with
  | VPair etag lmod => ret (etag, lmod)
  | VStr (String a (String b EmptyString)) =>
      ret (VStr (String a EmptyString), VStr (String b EmptyString))
  | VStr _ | VBytes _ => raise ValueError
  | VNone | VBool _ => raise TypeError
  end.

(** The request of [UrlHunk.data], with the validators of the cache. *)
Definition UrlHunk_request (url : string) (env : option Env) : M Request :=
  let request := {| req_url := url; req_headers := [] |} in
  match env_and_cache env with
  | Some cid =>
      headers <- url_cache_get cid "headers" url ;;
      if truthy headers then
        validators <- unpack2 headers ;;
        let etag := fst validators in
        let lmod := snd validators in
        let request :=
          if truthy etag then add_header request "If-None-Match" etag
          else request in
        let request :=
          if truthy lmod then add_header request "If-Modified-Since" lmod
          else request in
        ret request
      else ret request
  | None => ret request
  end.

(** [self.env.cache], an [AttributeError] on [None]. *)
Definition env_cache_attr (env : option Env) : M nat :=
  match env_and_cache env with
  | Some cid => ret cid
  | None => raise AttributeError
  end.

(** [UrlHunk.data]. *)
Definition UrlHunk_data (self : nat) (url : string) (env : option Env)
  : M PyVal :=
  memo <- gets (fun w => url_data w !! self) ;;
  match memo with
  | Some d => ret d
  | None =>
      request <- UrlHunk_request url env ;;
      emit (UrlOpen request) ;;;
      response <- gets (fun w => net w request) ;;
      match response with
      | HTTPErr code =>
          if negb (Z.eqb code 304) then raise (HTTPError code)
          else
            cid <- env_cache_attr env ;;
            d <- url_cache_get cid "contents" url ;;
            modify (set_url_data self d) ;;;
            ret d
      | URLErr => raise URLError
      | Response body getheader =>
          emit (BodyRead url) ;;;
          modify (set_url_data self (VBytes body)) ;;;
          match env_and_cache env with
          | Some cid =>
              match getheader with
              | Some header =>
                  url_cache_set cid "headers" url
                    (VPair (header "ETag") (header "Last-Modified")) ;;;
                  url_cache_set cid "contents" url (VBytes body)
              | None => raise AttributeError
              end
          | None => ret tt
          end ;;;
          ret (VBytes body)
      end
  end.

(** [MemoryHunk.data]. *)
Definition MemoryHunk_data (mdata : MemData) : M PyVal :=
  match mdata with
  | MStream sid => read sid
  | MVal v => ret v
  end.

(** [hunk.data()], dispatched on the class of the hunk. *)
Definition data (self : Hunk) : M PyVal :=
  match kind self with
  | FileHunk filename => FileHunk_data filename
  | UrlHunk url env => UrlHunk_data (oid self) url env
  | MemoryHunk mdata _ => MemoryHunk_data mdata
  end.

(** [BaseHunk.__hash__]. *)
Definition __hash__ (self : Hunk) : M Z :=
  d <- data self ;; ret (hash d).

(** [BaseHunk.__eq__]; [other] is a hunk by its type. *)
Definition __eq__ (self other : Hunk) : M bool :=
  a <- __hash__ self ;;
  b <- __hash__ other ;;
  ret (Z.eqb a b).

(** [MemoryHunk(data, files)]: a new object. *)
Definition new_MemoryHunk (mdata : MemData) (files : option (list string))
  : M Hunk :=
  fun w =>
    (Ok {| oid := next_oid w; kind := MemoryHunk mdata (default [] files) |},
     bump w).

(** ** [save] *)

(** [self.data().encode()]: of the values of [data()] only a [str] has an
    [encode] method. *)
Definition encoded (d : PyVal) : M string :=
  match d with
  | VStr s => ret (encode s)
  | _ => raise AttributeError
  end.

(** [BaseHunk.save]: [open(filename, 'wb')] creates the file, or empties
    it, before [self.data()] is called; leaving the [with] block closes the
    file with what was written.  The file system of the model accepts every
    path. *)
Definition BaseHunk_save (self : Hunk) (filename : string) : M unit :=
  modify (set_file filename EmptyString) ;;;
  d <- data self ;;
  b <- encoded d ;;
  modify (set_file filename b).

(** [MemoryHunk.save]: the same steps, with [try] and [finally] around the
    write. *)
Definition MemoryHunk_save (self : Hunk) (filename : string) : M unit :=
  modify (set_file filename EmptyString) ;;;
  d <- data self ;;
  b <- encoded d ;;
  modify (set_file filename b).

(** [hunk.save(filename)], dispatched on the class of the hunk. *)
Definition save (self : Hunk) (filename : string) : M unit :=
  match kind self with
  | MemoryHunk _ _ => MemoryHunk_save self filename
  | _ => BaseHunk_save self filename
  end.

(** ** Cache access with full keys *)

(** Modelled from the spec: the store takes the content identity of the
    hunk inside a key, which [BaseHunk.__hash__] computes from [data()]. *)
Definition resolve (k : Key) : M RKey :=
  match k with
  | KApply h fs ty => hv <- __hash__ h ;; ret (RApply hv fs ty)
  | KFunc args fs ty ck => ret (RFunc args fs ty ck)
  | KUrl what url => ret (RUrl what url)
  end.

(** Modelled from the spec: [cache.get(key)]. *)
Definition cache_get (cid : nat) (k : Key) : M PyVal :=
  emit (CacheGet cid k) ;;;
  rk <- resolve k ;;
  cache_lookup cid rk.

(** Modelled from the spec: [cache.set(key, value)]. *)
Definition cache_set (cid : nat) (k : Key) (v : PyVal) : M unit :=
  emit (CacheSet cid k v) ;;;
  rk <- resolve k ;;
  cache_store cid rk v.

(** [k1 == k2] on key tuples: component by component, a hunk by identity
    or by [BaseHunk.__eq__]. *)
Definition hunk_same_or_eq (h1 h2 : Hunk) : M bool :=
  if Nat.eqb (oid h1) (oid h2) then ret true else __eq__ h1 h2.

Definition Key_eq (k1 k2 : Key) : M bool :=
  match k1, k2 with
  | KApply h1 f1 t1, KApply h2 f2 t2 =>
      b <- hunk_same_or_eq h1 h2 ;;
      ret (b && tuple_eq f1 f2 && String.eqb t1 t2)
  | KFunc a1 f1 t1 c1, KFunc a2 f2 t2 c2 =>
      ret (bool_decide (a1 = a2) && tuple_eq f1 f2 && String.eqb t1 t2
           && bool_decide (c1 = c2))
  | KUrl a1 u1, KUrl a2 u2 => ret (String.eqb a1 a2 && String.eqb u1 u2)
  | _, _ => ret false
  end.

(** ** [merge] *)

(** [separator.join(tmp)]: every item must be a [str]. *)
Fixpoint strs (l : list PyVal) : option (list string) :=
  match l with
  | [] => Some []
  | VStr s :: l' =>
      match strs l' with
      | Some ss => Some (s :: ss)
      | None => None
      end
  | _ :: _ => None
  end.

Definition join (separator : string) (l : list PyVal) : M string :=
  match strs l with
  | Some ss => ret (String.concat separator ss)
  | None => raise TypeError
  end.

(** The body of the loop of [merge]. *)
Definition merge_step (tmp : list PyVal) (h : Hunk) : M (list PyVal) :=
  h <- data h ;;
  h <- match h with
       | VBytes b =>
           match decode b with
           | Some s => ret (VStr s)
           | None => raise UnicodeDecodeError
           end
       | _ => ret h
       end ;;
  ret (tmp ++ [h])%list.

(** [merge(hunks, separator=None)]. *)
Definition merge (hunks : list Hunk) (separator : option string) : M Hunk :=
  let separator :=
    match separator with
    | Some s => if negb (truthy (VStr s)) then newline else s
    | None => newline
    end in
  tmp <- foldM merge_step hunks [] ;;
  joined <- join separator tmp ;;
  new_MemoryHunk (MVal (VStr joined)) None.

(** ** [FilterTool] *)

Record FilterTool := {
  cache : option nat;
  no_cache_read : bool;
  kwargs : Kwargs
}.

Definition VALID_TRANSFORMS : list string := ["input"; "output"].
Definition VALID_FUNCS : list string := ["open"; "concat"].

(** [type in VALID]. *)
Definition str_in (type : string) (valid : list string) : bool :=
  existsb (String.eqb type) valid.

(** [kwargs_final]: a copy of [self.kwargs] updated with [kwargs or {}]. *)
Definition kwargs_final (self : FilterTool) (kw : option Kwargs) : Kwargs :=
  default ∅ kw ∪ kwargs self.

(** [FilterTool._wrap_cache]; [func] runs the filters and gives the final
    stream, of which [getvalue()] is taken. *)
Definition _wrap_cache (self : FilterTool) (key : Key) (func : M Content)
  : M Hunk :=
  let compute : M Hunk :=
    out <- func ;;
    let content := content_val out in
    match cache self with
    | Some cid => cache_set cid key content
    | None => ret tt
    end ;;;
    new_MemoryHunk (MVal content) None in
  match cache self with
  | Some cid =>
      if negb (no_cache_read self) then
        content <- cache_get cid key ;;
        if negb (in_False_None content)
        then new_MemoryHunk (MVal content) None
        else compute
      else compute
  | None => compute
  end.

(** [io.BytesIO(h)] for [bytes], [io.StringIO(h)] otherwise, which takes a
    [str] or [None]. *)
Definition open_stream (h : PyVal) : M Content :=
  match h with
  | VBytes b => ret (Bytes b)
  | VStr s => ret (Text s)
  | VNone => ret (Text EmptyString)
  | _ => raise TypeError
  end.

(** One round of the loop of [apply]: a new output stream of the kind of
    [data], the filter method called on both, the output rewound. *)
Definition run_transform (type : string) (kw : Kwargs) (data : Content)
  (filter : Filter) : M Content :=
  match getattr_transform filter type with
  | Some method =>
      emit (FilterCall filter type) ;;;
      match method data kw with
      | Wrote p => ret (same_kind data p)
      | Failed e => raise (FilterFailure e)
      end
  | None => raise TypeError
  end.

(** The local [func] of [apply]. *)
Definition apply_func_body (self : FilterTool) (hunk : Hunk)
  (filters : list Filter) (type : string) (kw : option Kwargs) : M Content :=
  let kwargs_final := kwargs_final self kw in
  h <- data hunk ;;
  data <- open_stream h ;;
  foldM (run_transform type kwargs_final) filters data.

(** [FilterTool.apply]. *)
Definition apply (self : FilterTool) (hunk : Hunk) (filters : list Filter)
  (type : string) (kw : option Kwargs) : M Hunk :=
  if negb (str_in type VALID_TRANSFORMS) then raise AssertionError
  else
    let filters :=
      List.filter (fun f => bool_decide (is_Some (getattr_transform f type)))
                  filters in
    match filters with
    | [] => ret hunk
    | _ :: _ =>
        let func := apply_func_body self hunk filters type kw in
        let key := KApply hunk filters type in
        _wrap_cache self key func
    end.

(** [', '.join([f.name for f in filters])]. *)
Definition names (filters : list Filter) : string :=
  String.concat ", " (map name filters).

(** The local [func] of [apply_func]; [filter] is [filters[0]]. *)
Definition producer_body (self : FilterTool) (filter : Filter)
  (type : string) (args : list PyVal) (kw : option Kwargs) : M Content :=
  let kwargs_final := kwargs_final self kw in
  match getattr_func filter type with
  | Some method =>
      emit (FilterCall filter type) ;;;
      match method args kwargs_final with
      | Wrote p => ret (Text p)
      | Failed e => raise (FilterFailure e)
      end
  | None => raise TypeError
  end.

(** [FilterTool.apply_func]. *)
Definition apply_func (self : FilterTool) (filters : list Filter)
  (type : string) (args : list PyVal) (kw : option Kwargs)
  (cache_key : option (list PyVal)) : M Hunk :=
  if negb (str_in type VALID_FUNCS) then raise AssertionError
  else
    let filters :=
      List.filter (fun f => bool_decide (is_Some (getattr_func f type)))
                  filters in
    match filters with
    | [] => raise NoFilters
    | filter :: rest =>
        if Nat.ltb 1 (length filters) then
          raise (MoreThanOneFilterError
                   ("These filters cannot be combined: " +:+ names filters)
                   filters)
        else
          let func := producer_body self filter type args kw in
          let key := KFunc args filters type (default [] cache_key) in
          _wrap_cache self key func
    end.

(** ** Filter lists *)

(** [f in result]. *)
Definition contains (f : Filter) (result : list Filter) : bool :=
  existsb (fun e => filter_same_or_eq f e) result.

(** [merge_filters(filters1, filters2)]. *)
Definition merge_filters (filters1 filters2 : list Filter) : list Filter :=
  let result := filters1 in
  match filters2 with
  | [] => result
  | _ :: _ =>
      fold_left
        (fun result f => if negb (contains f result) then (result ++ [f])%list
                         else result)
        filters2 result
  end.

(** The condition of the comprehension of [select_filters]. *)
Definition runs_at (level : PyVal) (f : Filter) : bool :=
  py_eq (max_debug_level f) VNone
  || Z.leb (cmp_debug_levels level (max_debug_level f)) 0.

(** [select_filters(filters, level)]. *)
Fixpoint select_filters (filters : list Filter) (level : PyVal)
  : list Filter :=
  match filters with
  | [] => []
  | f :: rest =>
      if runs_at level f then f :: select_filters rest level
      else select_filters rest level
  end.

(** ** The [GZip] filter *)

(** [GZip.output]: [out] and [_in] are rebound to new [BytesIO] objects
    made from [read().encode()], and the compressed data goes to that new
    [out]; the stream of the caller receives nothing.  On a binary stream
    [read()] gives [bytes], which has no [encode]. *)
Definition GZip_output (_in : Content) (kw : Kwargs) : Written :=
  match _in with
  | Text _ => Wrote EmptyString
  | Bytes _ => Failed "AttributeError"
  end.

(** A [GZip] object; [max_debug_level] comes from the [Filter] class. *)
Definition GZip (i : nat) (level : PyVal) : Filter :=
  {| fid := i; name := "gzip"; max_debug_level := level; input_m := None;
     output_m := Some GZip_output; open_m := None; concat_m := None |}.

(** * Vocabulary of the properties *)

(** The spec's reading of the second half of a merged list: walking
    [secondary] in order, a filter is kept iff no equal filter is present in
    what has been accumulated so far. *)
Fixpoint appended_unique (accumulated secondary : list Filter) : list Filter :=
  match secondary with
  | [] => []
  | f :: rest =>
      if contains f accumulated then appended_unique accumulated rest
      else f :: appended_unique (accumulated ++ [f]) rest
  end.

(** The object [MemoryHunk(content)] when it is created in the world [w]. *)
Definition in_memory (w : World) (content : PyVal) : Hunk :=
  {| oid := next_oid w; kind := MemoryHunk (MVal content) [] |}.

(** The text [merge] takes from a value of [data()]. *)
Definition text_of (v : PyVal) : option string :=
  match v with
  | VStr s => Some s
  | VBytes b => decode b
  | _ => None
  end.

(** [reads hunks w ts w']: calling [data()] on the hunks in order, from the
    world [w], succeeds, yields the texts [ts] and ends in [w']. *)
Inductive reads : list Hunk -> World -> list string -> World -> Prop :=
| reads_nil w : reads [] w [] w
| reads_cons h hunks w v t w1 ts w2 :
    data h w = (Ok v, w1) ->
    text_of v = Some t ->
    reads hunks w1 ts w2 ->
    reads (h :: hunks) w (t :: ts) w2.

(** The world with another allocation counter. *)
Definition with_next (n : nat) (w : World) : World :=
  {| files := files w; net := net w; url_data := url_data w;
     streams := streams w; stores := stores w; next_oid := n; log := log w |}.

(** [merged hunks separator s ts w w']: [merge(hunks, separator)] from [w]
    returns a new in-memory hunk holding the texts [ts] joined by [s], and
    [data()] of that hunk is the joined text. *)
Definition merged (hunks : list Hunk) (separator : option string)
  (s : string) (ts : list string) (w w' : World) : Prop :=
  let m := in_memory w' (VStr (String.concat s ts)) in
  merge hunks separator w = (Ok m, bump w')
  /\ data m (bump w') = (Ok (VStr (String.concat s ts)), bump w').

(** [content h t w]: in the world [w], [h.data()] gives a value of text [t]
    and leaves the world as it is. *)
Definition content (h : Hunk) (t : string) (w : World) : Prop :=
  exists v, data h w = (Ok v, w) /\ text_of v = Some t.

(** The separator [merge] joins with. *)
Definition used_separator (separator : option string) : string :=
  match separator with
  | Some s => if String.eqb s EmptyString then newline else s
  | None => newline
  end.

(** A call of a filter method. *)
Definition is_filter_call (e : Event) : bool :=
  match e with
  | FilterCall _ _ => true
  | _ => false
  end.

(** The filter method calls of a log. *)
Definition filter_calls (l : list Event) : list Event :=
  List.filter is_filter_call l.

(** A cache [get] or [set] on a key of [FilterTool]. *)
Definition is_tool_cache_access (e : Event) : bool :=
  match e with
  | CacheGet _ (KApply _ _ _) | CacheGet _ (KFunc _ _ _ _)
  | CacheSet _ (KApply _ _ _) _ | CacheSet _ (KFunc _ _ _ _) _ => true
  | _ => false
  end.

(** The cache accesses of [FilterTool] in a log. *)
Definition tool_cache_accesses (l : list Event) : list Event :=
  List.filter is_tool_cache_access l.

(** The events of [data()]: the transport and the [url] entries of the
    environment's cache. *)
Definition is_hunk_event (e : Event) : bool :=
  negb (is_filter_call e) && negb (is_tool_cache_access e).

(** Two worlds with the same files, memoized bodies and streams. *)
Definition same_heap (w w' : World) : Prop :=
  files w = files w' /\ url_data w = url_data w' /\ streams w = streams w'.

(** What leads [_wrap_cache] to compute: reads are disabled, or the read
    came back with [False] or [None]. *)
Definition cache_missed (self : FilterTool) (cid : nat) (key : Key)
  (w w1 : World) : Prop :=
  (no_cache_read self = true /\ w1 = w)
  \/ (no_cache_read self = false
      /\ exists absent, cache_get cid key w = (Ok absent, w1)
                        /\ in_False_None absent = true).

(** The body transfers of a log. *)
Definition body_reads (l : list Event) : list Event :=
  List.filter (fun e => match e with BodyRead _ => true | _ => false end) l.

(** The request [UrlHunk.data] sends when the cache holds the validators
    [(etag, lmod)] for the url. *)
Definition conditional_request (url : string) (etag lmod : PyVal) : Request :=
  let request := {| req_url := url; req_headers := [] |} in
  let request :=
    if truthy etag then add_header request "If-None-Match" etag else request in
  if truthy lmod then add_header request "If-Modified-Since" lmod else request.

(** The world with more events in its log. *)
Definition add_events (evs : list Event) (w : World) : World :=
  {| files := files w; net := net w; url_data := url_data w;
     streams := streams w; stores := stores w; next_oid := next_oid w;
     log := log w ++ evs |}.

(** The calls of the method [type] of the filters, in order. *)
Definition calls (type : string) (filters : list Filter) : list Event :=
  map (fun f => FilterCall f type) filters.

(** What a chain of transforms makes of a stream when every method writes
    its output: each filter, in list order, reads what the one before it
    wrote, and the kind of the stream is that of the first input.  [None]
    when a method is missing or fails. *)
Fixpoint chain_output (type : string) (kw : Kwargs) (filters : list Filter)
  (d : Content) : option Content :=
  match filters with
  | [] => Some d
  | f :: rest =>
      match getattr_transform f type with
      | Some method =>
          match method d kw with
          | Wrote p => chain_output type kw rest (same_kind d p)
          | Failed _ => None
          end
      | None => None
      end
  end.

(** [isinstance(v, bytes)]. *)
Definition is_bytes (v : PyVal) : bool :=
  match v with
  | VBytes _ => true
  | _ => false
  end.

(** * Sample data *)

(** A hash, a codec, a filter equality and a level order to run the
    definitions on: the length of the text, plain ASCII, equality of names,
    and [False < 'merge' < True]. *)
Definition hash_len (v : PyVal) : Z :=
  match v with
  | VStr s | VBytes s => Z.of_nat (String.length s)
  | VBool true => 1
  | _ => 0
  end.

Definition decode_ascii (b : string) : option string := Some b.

Definition eq_by_name (x y : Filter) : bool := String.eqb (name x) (name y).

Definition level_rank (v : PyVal) : Z :=
  match v with
  | VBool true => 2
  | VStr _ => 1
  | _ => 0
  end.

Definition cmp_levels (a b : PyVal) : Z :=
  match Z.compare (level_rank a) (level_rank b) with
  | Lt => -1
  | Eq => 0
  | Gt => 1
  end.

(** A filter with an [output] method only, one with [open] only. *)
Definition output_filter (i : nat) (nm : string) (level : PyVal)
  (method : Content -> Kwargs -> Written) : Filter :=
  {| fid := i; name := nm; max_debug_level := level; input_m := None;
     output_m := Some method; open_m := None; concat_m := None |}.

Definition open_filter (i : nat) (nm : string)
  (method : list PyVal -> Kwargs -> Written) : Filter :=
  {| fid := i; name := nm; max_debug_level := VNone; input_m := None;
     output_m := None; open_m := Some method; concat_m := None |}.

(** A stand-in for a minifier: it writes its input between brackets. *)
Definition bracket (d : Content) (_ : Kwargs) : Written :=
  match d with
  | Text s | Bytes s => Wrote ("[" +:+ s +:+ "]")
  end.

Definition cssmin : Filter := output_filter 10 "cssmin" (VBool false) bracket.
Definition rewrite_f : Filter := output_filter 11 "cssrewrite" VNone bracket.
Definition less : Filter := open_filter 12 "less" (fun _ _ => Wrote "less").
Definition sass : Filter := open_filter 13 "sass" (fun _ _ => Wrote "sass").

(** A world with one file, no network, and nothing cached. *)
Definition css_world : World :=
  {| files := {[ "a.css" := "a{}" ]}; net := fun _ => URLErr;
     url_data := ∅; streams := ∅; stores := ∅; next_oid := 5; log := [] |}.

Definition file_hunk : Hunk := {| oid := 0; kind := FileHunk "a.css" |}.

Definition memory_hunk : Hunk :=
  {| oid := 1; kind := MemoryHunk (MVal (VStr "a{}")) ["b.css"] |}.

Definition text_hunk (i : nat) (s : string) : Hunk :=
  {| oid := i; kind := MemoryHunk (MVal (VStr s)) [] |}.

Definition cached_tool : FilterTool :=
  {| cache := Some 0%nat; no_cache_read := false; kwargs := ∅ |}.

Definition plain_tool : FilterTool :=
  {| cache := None; no_cache_read := false; kwargs := ∅ |}.

(** The key of [apply] for [memory_hunk], [cssmin] and [output]. *)
Definition css_key : Key := KApply memory_hunk [cssmin] "output".

(** The world after the cache read of a first, cold, call. *)
Definition cold_world : World := add_event (CacheGet 0 css_key) css_world.

(** The world a first call of [apply] on [memory_hunk] leaves behind. *)
Definition warm_world : World :=
  {| files := {[ "a.css" := "a{}" ]}; net := fun _ => URLErr;
     url_data := ∅; streams := ∅;
     stores := {[ 0%nat := [(RApply 3 [cssmin] "output", VStr "[a{}]")] ]};
     next_oid := 6;
     log := [CacheGet 0 css_key; FilterCall cssmin "output";
             CacheSet 0 css_key (VStr "[a{}]")] |}.

(** The headers of a response with an ETag and no date. *)
Definition etag_only (header : string) : PyVal :=
  if String.eqb header "ETag" then VStr "v1" else VNone.

(** A server that sends the body with an ETag to an unconditional request
    and answers 304 to a conditional one, seen through a [headers] object
    that has [getheader]. *)
Definition serve (r : Request) : Outcome :=
  match req_headers r with
  | [] => Response "a{}" (Some etag_only)
  | _ :: _ => HTTPErr 304
  end.

(** The same server seen through Python 3's [urlopen]. *)
Definition serve_py3 (r : Request) : Outcome :=
  match req_headers r with
  | [] => py3_response "a{}"
  | _ :: _ => HTTPErr 304
  end.

Definition url_world (server : Request -> Outcome) : World :=
  {| files := ∅; net := server; url_data := ∅; streams := ∅; stores := ∅;
     next_oid := 5; log := [] |}.

Definition css_env : Env := {| env_cache := Some 0%nat |}.

Definition url_hunk (i : nat) : Hunk :=
  {| oid := i; kind := UrlHunk "http://cdn/a.css" (Some css_env) |}.

Definition plain_request : Request :=
  {| req_url := "http://cdn/a.css"; req_headers := [] |}.

(** A codec for [str.encode()] to go with [decode_ascii]. *)
Definition encode_ascii (s : string) : string := s.

(** A filter whose [output] method raises. *)
Definition broken : Filter :=
  output_filter 14 "broken" VNone (fun _ _ => Failed "boom").

(** A world with one unread stream, and a hunk made of that stream. *)
Definition stream_world : World :=
  {| files := ∅; net := fun _ => URLErr; url_data := ∅;
     streams := {[ 3%nat := Text "abc" ]}; stores := ∅; next_oid := 5;
     log := [] |}.

Definition stream_hunk : Hunk :=
  {| oid := 2; kind := MemoryHunk (MStream 3) [] |}.

(** A world whose cache holds a body for the url and whose server answers
    304 to everything. *)
Definition cached_url_world : World :=
  {| files := ∅; net := fun _ => HTTPErr 304; url_data := ∅; streams := ∅;
     stores :=
       {[ 0%nat := [(RUrl "contents" "http://cdn/a.css", VBytes "a{}")] ]};
     next_oid := 5; log := [] |}.

(** A [UrlHunk] without an environment, and the world after its fetch
    from [serve_py3]. *)
Definition bare_url_hunk (i : nat) : Hunk :=
  {| oid := i; kind := UrlHunk "http://cdn/a.css" None |}.

Definition fetched_world : World :=
  set_url_data 7 (VBytes "a{}")
    (add_event (BodyRead "http://cdn/a.css")
       (add_event (UrlOpen plain_request) (url_world serve_py3))).

(** Hunks whose [data()] is [bytes] and [None]. *)
Definition bytes_hunk : Hunk :=
  {| oid := 3; kind := MemoryHunk (MVal (VBytes "a{}")) [] |}.

Definition none_hunk : Hunk :=
  {| oid := 4; kind := MemoryHunk (MVal VNone) [] |}.

(** A producer that writes a comment naming the file it is given. *)
Definition banner : Filter :=
  open_filter 15 "banner"
    (fun args _ =>
       match args with
       | [VStr p] => Wrote ("// " +:+ p)
       | _ => Failed "TypeError"
       end).

(** The key of [apply_func] for [banner], [open] and one file name, and
    the world a first call leaves behind. *)
Definition banner_key : Key := KFunc [VStr "a.less"] [banner] "open" [].

Definition banner_world : World :=
  {| files := {[ "a.css" := "a{}" ]}; net := fun _ => URLErr;
     url_data := ∅; streams := ∅;
     stores :=
       {[ 0%nat := [(RFunc [VStr "a.less"] [banner] "open" [],
                     VStr "// a.less")] ]};
     next_oid := 6;
     log := [CacheGet 0 banner_key; FilterCall banner "open";
             CacheSet 0 banner_key (VStr "// a.less")] |}.

(** * Properties *)

(** ** Filter lists *)

Lemma merge_loop_appended (secondary accumulated : list Filter) :
  fold_left
    (fun result f => if negb (contains f result) then (result ++ [f])%list
                     else result)
    secondary accumulated
  = (accumulated ++ appended_unique accumulated secondary)%list.
Proof.
  revert accumulated.
  induction secondary as [|f rest IH]; intros accumulated; simpl.
  - by rewrite app_nil_r.
  - destruct (contains f accumulated); simpl.
    + apply IH.
    + rewrite IH. by rewrite <- app_assoc.
Qed.


Lemma select_filters_filter (filters : list Filter) (level : PyVal) :
  select_filters filters level = List.filter (runs_at level) filters.
Proof.
  induction filters as [|f rest IH]; simpl; [done|].
  destruct (runs_at level f); by rewrite IH.
Qed.

Lemma select_filters_sublist (filters : list Filter) (level : PyVal) :
  sublist (select_filters filters level) filters.
Proof.
  induction filters as [|f rest IH]; simpl.
  - constructor.
  - destruct (runs_at level f).
    + by apply sublist_skip.
    + by apply sublist_cons.
Qed.

Lemma runs_at_iff (level : PyVal) (f : Filter) :
  runs_at level f = true <->
  max_debug_level f = VNone
  \/ (cmp_debug_levels level (max_debug_level f) <= 0)%Z.
Proof.
  unfold runs_at, py_eq.
  by rewrite orb_true_iff, bool_decide_eq_true, Z.leb_le.
Qed.

(** C7: [select_filters] keeps, in their order, exactly the filters whose
    [max_debug_level] is unset or for which
    [cmp_debug_levels(level, max_debug_level) <= 0]; every other filter is
    left out. *)
Theorem select_filters_spec (filters : list Filter) (level : PyVal) :
  select_filters filters level
  = List.filter
      (fun f => bool_decide (max_debug_level f = VNone
                             \/ (cmp_debug_levels level (max_debug_level f) <= 0)%Z))
      filters
  /\ sublist (select_filters filters level) filters
  /\ (forall f, In f (select_filters filters level) <->
                In f filters
                /\ (max_debug_level f = VNone
                    \/ (cmp_debug_levels level (max_debug_level f) <= 0)%Z)).
Proof.
  split; [|split].
  - rewrite select_filters_filter. apply filter_ext. intros f.
    destruct (runs_at level f) eqn:E.
    + symmetry. apply bool_decide_eq_true. by apply runs_at_iff.
    + symmetry. apply bool_decide_eq_false. rewrite <- runs_at_iff.
      by rewrite E.
  - apply select_filters_sublist.
  - intros f. rewrite select_filters_filter, filter_In. by rewrite runs_at_iff.
Qed.


(** ** The short-circuit and the error exits of [FilterTool] *)

Lemma str_in_transforms (type : string) :
  type = "input" \/ type = "output" -> str_in type VALID_TRANSFORMS = true.
Proof. by intros [-> | ->]. Qed.

Lemma str_in_funcs (type : string) :
  type = "open" \/ type = "concat" -> str_in type VALID_FUNCS = true.
Proof. by intros [-> | ->]. Qed.

Lemma filter_none {A} (p : A -> bool) (l : list A) :
  Forall (fun x => p x = false) l -> List.filter p l = [].
Proof.
  induction 1 as [|x l Hx _ IH]; simpl; [done|]. by rewrite Hx.
Qed.

(** C3: when no filter of the list has a method of the requested transform
    kind, [apply] returns the hunk it was given and leaves the world as it
    was: no cache [get] or [set] is logged, no store changes and no object
    is allocated. *)
Theorem apply_short_circuit (self : FilterTool) (hunk : Hunk)
  (filters : list Filter) (type : string) (kw : option Kwargs) (w : World) :
  type = "input" \/ type = "output" ->
  Forall (fun f => getattr_transform f type = None) filters ->
  apply self hunk filters type kw w = (Ok hunk, w).
Proof.
  intros Hty Hnone. unfold apply.
  rewrite (str_in_transforms _ Hty). simpl.
  rewrite filter_none; [done|].
  eapply Forall_impl; [exact Hnone|].
  intros f Hf. simpl in Hf. rewrite Hf. apply bool_decide_eq_false.
  by intros [m Hm].
Qed.

(** C4: [apply_func] raises [NoFilters] when no filter implements the
    producer method and [MoreThanOneFilterError], carrying the filters that
    implement it, when more than one does; either way the world is left as
    it was, so no filter method ran and the cache was neither read nor
    written. *)
Theorem apply_func_errors (self : FilterTool) (filters : list Filter)
  (type : string) (args : list PyVal) (kw : option Kwargs)
  (cache_key : option (list PyVal)) (w : World) :
  type = "open" \/ type = "concat" ->
  let implementing :=
    List.filter (fun f => bool_decide (is_Some (getattr_func f type))) filters in
  (length implementing = 0%nat ->
   apply_func self filters type args kw cache_key w = (Raise NoFilters, w))
  /\ ((1 < length implementing)%nat ->
      apply_func self filters type args kw cache_key w
      = (Raise (MoreThanOneFilterError
                  ("These filters cannot be combined: " +:+ names implementing)
                  implementing), w)).
Proof.
  intros Hty implementing. unfold apply_func.
  rewrite (str_in_funcs _ Hty). simpl. fold implementing.
  split.
  - intros Hlen. by destruct implementing.
  - intros Hlen. destruct implementing as [|f rest] eqn:E; [simpl in Hlen; lia|].
    by destruct (Nat.ltb_spec 1 (length (f :: rest))) as [_ | Hle]; [|lia].
Qed.

(** ** Reading hunks *)

Ltac mrun := unfold bind, ret, raise, gets, modify, emit in *; simpl in *.

(** [data()] neither reads nor moves the allocation counter. *)
Lemma data_with_next (h : Hunk) (n : nat) (w : World) :
  data h (with_next n w)
  = (fst (data h w), with_next n (snd (data h w))).
Proof.
  destruct h as [i k]. unfold data. simpl. destruct k as [fn | url env | md fs].
  - unfold FileHunk_data. mrun. by repeat case_match.
  - unfold UrlHunk_data, UrlHunk_request, unpack2, env_cache_attr, url_cache_get,
      url_cache_set, cache_lookup, cache_store, store_of. mrun.
    repeat (case_match; simplify_eq/=; try done).
  - destruct md as [v | sid]; simpl; [done|].
    unfold read. simpl. by case_match.
Qed.

Lemma data_bump (h : Hunk) (w : World) (v : PyVal) :
  data h w = (Ok v, w) -> data h (bump w) = (Ok v, bump w).
Proof.
  intros H. change (bump w) with (with_next (S (next_oid w)) w).
  by rewrite data_with_next, H.
Qed.

Lemma strs_VStr (ts : list string) : strs (map VStr ts) = Some ts.
Proof. induction ts as [|t ts IH]; simpl; [done|]. by rewrite IH. Qed.

Lemma merge_loop_reads (hunks : list Hunk) (w : World) (ts : list string)
  (w' : World) :
  reads hunks w ts w' ->
  forall tmp, foldM merge_step hunks tmp w = (Ok (tmp ++ map VStr ts)%list, w').
Proof.
  induction 1 as [w | h hunks w v t w1 ts w2 Hd Ht _ IH]; intros tmp; simpl.
  - unfold ret. by rewrite app_nil_r.
  - unfold bind at 1. unfold merge_step at 1. unfold bind at 1. rewrite Hd.
    assert (Hconv :
      (match v with
       | VBytes b =>
           match decode b with
           | Some s => ret (VStr s)
           | None => raise UnicodeDecodeError
           end
       | _ => ret v
       end) w1 = (Ok (VStr t), w1)).
    { destruct v; simpl in Ht; simplify_eq; try done. by rewrite Ht. }
    unfold bind at 1. rewrite Hconv. unfold ret at 1.
    rewrite IH. by rewrite <- app_assoc.
Qed.

Lemma merge_reads (hunks : list Hunk) (separator : option string)
  (ts : list string) (w w' : World) :
  reads hunks w ts w' ->
  merged hunks separator
    (match separator with
     | Some s => if String.eqb s EmptyString then newline else s
     | None => newline
     end) ts w w'.
Proof.
  intros Hr. unfold merged, merge. split; [|done].
  unfold bind at 1. rewrite (merge_loop_reads _ _ _ _ Hr). simpl.
  unfold bind at 1, join. rewrite strs_VStr. unfold ret at 1.
  unfold new_MemoryHunk. simpl.
  destruct separator as [s|]; [|done].
  simpl. by destruct (String.eqb s EmptyString).
Qed.

(** What [UrlHunk.data] returns is kept in [_data]. *)
Lemma url_memo_after (i : nat) (url : string) (env : option Env) (v : PyVal)
  (w w1 : World) :
  data {| oid := i; kind := UrlHunk url env |} w = (Ok v, w1) ->
  url_data w1 !! i = Some v.
Proof.
  unfold data. simpl.
  unfold UrlHunk_data, UrlHunk_request, unpack2, env_cache_attr,
    url_cache_get, url_cache_set, cache_lookup, cache_store, store_of.
  mrun. intros H.
  repeat (case_match; simplify_eq/=); try done; by rewrite lookup_insert_eq.
Qed.

(** After a [data()] call that returned, a hunk that is not made of a
    readable object returns the same value again and changes nothing. *)
Lemma data_settles (h : Hunk) (v : PyVal) (w w1 : World) :
  data h w = (Ok v, w1) ->
  (forall sid fs, kind h <> MemoryHunk (MStream sid) fs) ->
  data h w1 = (Ok v, w1).
Proof.
  destruct h as [i k]. destruct k as [fn | url env | md fs]; intros H Hk.
  - revert H. unfold data, FileHunk_data. mrun.
    destruct (files w !! fn) as [b|] eqn:Hf; [|done].
    destruct (decode b) eqn:Hb; [|done].
    intros H. simplify_eq. by rewrite Hf, Hb.
  - pose proof (url_memo_after _ _ _ _ _ _ H) as Hm.
    unfold data, UrlHunk_data. mrun. by rewrite Hm.
  - destruct md as [v0 | sid].
    + revert H. unfold data. simpl. unfold ret. intros H. by simplify_eq.
    + by destruct (Hk sid fs).
Qed.

(** ** [merge] *)

(** C5 (amended): for hunks whose [data()] calls succeed in order with the
    texts [ts], [merge] with a non-empty separator [s] returns a new
    in-memory hunk whose [data()] is [ts] joined by [s] (for two hunks:
    [c1 + s + c2]); with no separator, or with the empty string as
    separator, the texts are joined by a single line break. *)
Theorem merge_joins (hunks : list Hunk) (ts : list string) (w w' : World) :
  reads hunks w ts w' ->
  (forall s, s <> EmptyString -> merged hunks (Some s) s ts w w')
  /\ merged hunks None newline ts w w'
  /\ merged hunks (Some EmptyString) newline ts w w'
  /\ (forall s c1 c2, String.concat s [c1; c2] = c1 +:+ s +:+ c2).
Proof.
  intros Hr. split; [|split; [|split]].
  - intros s Hs. pose proof (merge_reads hunks (Some s) ts w w' Hr) as H.
    apply String.eqb_neq in Hs. cbv beta iota in H. by rewrite Hs in H.
  - by destruct (merge_reads hunks None ts w w' Hr).
  - by destruct (merge_reads hunks (Some EmptyString) ts w w' Hr).
  - done.
Qed.

Lemma content_bump (h : Hunk) (t : string) (w : World) :
  content h t w -> content h t (bump w).
Proof. intros (v & Hd & Ht). exists v. split; [by apply data_bump|done]. Qed.

Lemma content_memory (i : nat) (t : string) (fs : list string) (w : World) :
  content {| oid := i; kind := MemoryHunk (MVal (VStr t)) fs |} t w.
Proof. by exists (VStr t). Qed.

Lemma reads_content (hunks : list Hunk) (ts : list string) (w : World) :
  Forall2 (fun h t => content h t w) hunks ts -> reads hunks w ts w.
Proof.
  induction 1 as [|h t hunks ts (v & Hd & Ht) _ IH]; [constructor|].
  by econstructor.
Qed.

Lemma append_assoc (a b c : string) : (a +:+ b) +:+ c = a +:+ (b +:+ c).
Proof.
  induction a as [|x a IH]; [done|].
  change (String x ((a +:+ b) +:+ c) = String x (a +:+ (b +:+ c))).
  by rewrite IH.
Qed.

(** C9: for a fixed separator and hunks whose [data()] gives the texts
    [t1], [t2], [t3] at every call, merging [[merge([h1, h2]), h3]],
    [[h1, merge([h2, h3])]] and [[h1, h2, h3]] gives hunks with the same
    [data()]: the three texts joined by the separator.  Every hunk not
    made of a readable object is such a hunk once its [data()] has
    returned. *)
Theorem merge_assoc (separator : option string) (h1 h2 h3 : Hunk)
  (t1 t2 t3 : string) (w : World) :
  content h1 t1 w -> content h2 t2 w -> content h3 t3 w ->
  let s := used_separator separator in
  let m12 := in_memory w (VStr (t1 +:+ s +:+ t2)) in
  let m23 := in_memory w (VStr (t2 +:+ s +:+ t3)) in
  let all := t1 +:+ s +:+ t2 +:+ s +:+ t3 in
  let left := in_memory (bump w) (VStr all) in
  let right := in_memory (bump w) (VStr all) in
  let flat := in_memory w (VStr all) in
  merge [h1; h2] separator w = (Ok m12, bump w)
  /\ merge [m12; h3] separator (bump w) = (Ok left, bump (bump w))
  /\ merge [h2; h3] separator w = (Ok m23, bump w)
  /\ merge [h1; m23] separator (bump w) = (Ok right, bump (bump w))
  /\ merge [h1; h2; h3] separator w = (Ok flat, bump w)
  /\ data left (bump (bump w)) = (Ok (VStr all), bump (bump w))
  /\ data right (bump (bump w)) = (Ok (VStr all), bump (bump w))
  /\ data flat (bump w) = (Ok (VStr all), bump w)
  /\ (forall h v t wx wy,
        data h wx = (Ok v, wy) -> text_of v = Some t ->
        (forall sid fs, kind h <> MemoryHunk (MStream sid) fs) ->
        content h t wy).
Proof.
  intros C1 C2 C3 s m12 m23 all left right flat.
  assert (R12 : reads [h1; h2] w [t1; t2] w)
    by (apply reads_content; repeat constructor; done).
  assert (R23 : reads [h2; h3] w [t2; t3] w)
    by (apply reads_content; repeat constructor; done).
  assert (R123 : reads [h1; h2; h3] w [t1; t2; t3] w)
    by (apply reads_content; repeat constructor; done).
  destruct (merge_reads _ separator _ _ _ R12) as [M12 _].
  destruct (merge_reads _ separator _ _ _ R23) as [M23 _].
  destruct (merge_reads _ separator _ _ _ R123) as [M123 _].
  assert (RL : reads [m12; h3] (bump w) [t1 +:+ s +:+ t2; t3] (bump w)).
  { apply reads_content. repeat constructor.
    - apply content_memory.
    - by apply content_bump. }
  assert (RR : reads [h1; m23] (bump w) [t1; t2 +:+ s +:+ t3] (bump w)).
  { apply reads_content. repeat constructor.
    - by apply content_bump.
    - apply content_memory. }
  destruct (merge_reads _ separator _ _ _ RL) as [ML _].
  destruct (merge_reads _ separator _ _ _ RR) as [MR _].
  fold (used_separator separator) in M12, M23, M123, ML, MR.
  fold s in M12, M23, M123, ML, MR.
  split; [exact M12|]. split.
  { rewrite ML. unfold left, in_memory, all. simpl.
    by rewrite !append_assoc. }
  split; [exact M23|]. split; [exact MR|]. split; [exact M123|].
  split; [done|]. split; [done|]. split; [done|].
  intros h v t wx wy Hd Ht Hk. exists v. split; [|exact Ht].
  by apply (data_settles h v wx wy).
Qed.

(** ** Keys, hashes and the store *)

Lemma tuple_eq_refl (fs : list Filter) : tuple_eq fs fs = true.
Proof.
  induction fs as [|f fs IH]; simpl; [done|].
  unfold filter_same_or_eq, same_filter. by rewrite Nat.eqb_refl, IH.
Qed.

Lemma rkey_eq_refl (rk : RKey) : rkey_eq rk rk = true.
Proof.
  destruct rk as [hv fs ty | args fs ty ck | what url]; simpl.
  - by rewrite Z.eqb_refl, tuple_eq_refl, String.eqb_refl.
  - rewrite tuple_eq_refl, String.eqb_refl.
    by rewrite !bool_decide_eq_true_2.
  - by rewrite !String.eqb_refl.
Qed.

(** An entry written under a key is what a read under that key finds. *)
Lemma store_get_set (rk : RKey) (v : PyVal) (s : list (RKey * PyVal)) :
  store_get rk (store_set rk v s) = v.
Proof. unfold store_get, store_set. simpl. by rewrite rkey_eq_refl. Qed.

Lemma hash_data (h : Hunk) (v : PyVal) (w w' : World) :
  data h w = (Ok v, w') -> __hash__ h w = (Ok (hash v), w').
Proof. intros H. unfold __hash__, bind. by rewrite H. Qed.

(** ** What a call leaves in the log *)

Lemma same_heap_refl (w : World) : same_heap w w.
Proof. by repeat split. Qed.

Lemma same_heap_trans (w1 w2 w3 : World) :
  same_heap w1 w2 -> same_heap w2 w3 -> same_heap w1 w3.
Proof.
  intros (A & B & C) (D & E & F). repeat split; congruence.
Qed.

Lemma same_heap_add_event (e : Event) (w : World) : same_heap w (add_event e w).
Proof. by repeat split. Qed.

Lemma same_heap_set_store (i : nat) (s : list (RKey * PyVal)) (w : World) :
  same_heap w (set_store i s w).
Proof. by repeat split. Qed.

Ltac log_delta :=
  first
    [ exists []; split; [by rewrite app_nil_r | by constructor]
    | rewrite <- ?app_assoc; eexists; split;
      [reflexivity | by repeat constructor] ].

(** [data()] only appends hunk events to the log. *)
Lemma data_events (h : Hunk) (w : World) (r : Result PyVal) (w' : World) :
  data h w = (r, w') ->
  exists evs, log w' = (log w ++ evs)%list
              /\ Forall (fun e => is_hunk_event e = true) evs.
Proof.
  destruct h as [i k]. unfold data. simpl. destruct k as [fn | url env | md fs].
  - unfold FileHunk_data. mrun. intros H.
    repeat case_match; simplify_eq; log_delta.
  - unfold UrlHunk_data, UrlHunk_request, unpack2, env_cache_attr, url_cache_get,
      url_cache_set, cache_lookup, cache_store, store_of. mrun. intros H.
    repeat (case_match; simplify_eq/=); log_delta.
  - destruct md as [v | sid]; simpl.
    + unfold ret. intros H. simplify_eq. log_delta.
    + unfold read. intros H. repeat case_match; simplify_eq; log_delta.
Qed.

(** Once [data()] has succeeded, it succeeds again in every world with the
    same heap. *)
Lemma data_again (h : Hunk) (w : World) (v : PyVal) (w1 : World) :
  data h w = (Ok v, w1) ->
  forall w2, same_heap w1 w2 -> exists v' w3, data h w2 = (Ok v', w3)
                                              /\ same_heap w2 w3.
Proof.
  destruct h as [i k]. unfold data. simpl. destruct k as [fn | url env | md fs].
  - unfold FileHunk_data. mrun. intros H w2 (Hf & _ & _).
    repeat case_match; simplify_eq; rewrite <- Hf in *; simplify_eq.
    eexists _, _. split; [reflexivity | apply same_heap_refl].
  - intros H w2 (_ & Hu & _).
    assert (Hmemo : is_Some (url_data w1 !! i)).
    { revert H.
      unfold UrlHunk_data, UrlHunk_request, unpack2, env_cache_attr, url_cache_get,
        url_cache_set, cache_lookup, cache_store, store_of. mrun. intros H.
      repeat (case_match; simplify_eq/=); try (by eexists);
        rewrite lookup_insert_eq; by eexists. }
    destruct Hmemo as [d Hd]. rewrite Hu in Hd.
    unfold UrlHunk_data. mrun. rewrite Hd.
    eexists _, _. split; [reflexivity | apply same_heap_refl].
  - destruct md as [v0 | sid]; simpl.
    + unfold ret. intros H w2 _. eexists _, _.
      split; [reflexivity | apply same_heap_refl].
    + unfold read. intros H w2 (_ & _ & Hs).
      destruct (streams w !! sid) as [c|] eqn:E; simplify_eq. simpl in Hs.
      rewrite <- Hs, lookup_insert_eq.
      eexists _, _. split; [reflexivity|].
      repeat split; simpl. rewrite <- Hs, insert_insert_eq. by destruct c.
Qed.

Lemma in_memory_data (w w' : World) (content : PyVal) :
  data (in_memory w content) w' = (Ok content, w').
Proof. done. Qed.

Lemma filter_calls_app (l1 l2 : list Event) :
  filter_calls (l1 ++ l2) = (filter_calls l1 ++ filter_calls l2)%list.
Proof. apply List.filter_app. Qed.

Lemma tool_cache_accesses_app (l1 l2 : list Event) :
  tool_cache_accesses (l1 ++ l2)
  = (tool_cache_accesses l1 ++ tool_cache_accesses l2)%list.
Proof. apply List.filter_app. Qed.

Lemma hunk_events_no_calls (evs : list Event) :
  Forall (fun e => is_hunk_event e = true) evs ->
  filter_calls evs = [] /\ tool_cache_accesses evs = [].
Proof.
  induction 1 as [|e evs He _ [IH1 IH2]]; [done|].
  unfold is_hunk_event in He. apply andb_true_iff in He as [A B].
  apply negb_true_iff in A, B.
  unfold filter_calls, tool_cache_accesses in *. simpl.
  by rewrite A, B.
Qed.

Lemma filter_calls_of_calls (type : string) (fs : list Filter) :
  filter_calls (map (fun f => FilterCall f type) fs)
  = map (fun f => FilterCall f type) fs
  /\ tool_cache_accesses (map (fun f => FilterCall f type) fs) = [].
Proof.
  induction fs as [|f fs [IH1 IH2]]; [done|].
  unfold filter_calls, tool_cache_accesses in *. simpl. by rewrite IH1, IH2.
Qed.

(** The loop of [apply] touches nothing but the log, to which it appends
    one call per filter it reaches; when it completes, it has called every
    filter once, in order. *)
Lemma chain_events (type : string) (kw : Kwargs) (fs : list Filter) :
  forall (d : Content) (w : World) (r : Result Content) (w' : World),
    foldM (run_transform type kw) fs d w = (r, w') ->
    same_heap w w'
    /\ exists evs,
         log w' = (log w ++ evs)%list
         /\ tool_cache_accesses evs = []
         /\ (forall out, r = Ok out ->
                         evs = map (fun f => FilterCall f type) fs).
Proof.
  induction fs as [|f fs IH]; intros d w r w' H; simpl in H.
  - unfold ret in H. simplify_eq. split; [apply same_heap_refl|].
    exists []. by rewrite app_nil_r.
  - unfold bind at 1 in H. unfold run_transform at 1 in H.
    destruct (getattr_transform f type) as [method|].
    + mrun. destruct (method d kw) as [p | err].
      * apply IH in H as (Hh & evs & Hl & Ht & Hok).
        split; [exact Hh|]. simpl in Hl.
        exists (FilterCall f type :: evs). split; [|split].
        -- rewrite Hl. by rewrite <- app_assoc.
        -- unfold tool_cache_accesses in *. simpl. exact Ht.
        -- intros out ->. by rewrite (Hok out eq_refl).
      * simplify_eq. split; [done|].
        exists [FilterCall f type]. by repeat split.
    + mrun. simplify_eq. split; [apply same_heap_refl|].
      exists []. rewrite app_nil_r. by repeat split.
Qed.

Lemma open_stream_world (v : PyVal) (w : World) (r : Result Content)
  (w' : World) :
  open_stream v w = (r, w') -> w' = w.
Proof. destruct v; unfold open_stream, ret, raise; intros H; by simplify_eq. Qed.

(** The local function of [apply]: it reads the hunk and runs the chain. *)
Lemma apply_body_events (self : FilterTool) (hunk : Hunk) (fs : list Filter)
  (type : string) (kw : option Kwargs) (w : World) (r : Result Content)
  (w' : World) :
  apply_func_body self hunk fs type kw w = (r, w') ->
  exists evs,
    log w' = (log w ++ evs)%list
    /\ tool_cache_accesses evs = []
    /\ (forall out, r = Ok out ->
          filter_calls evs = map (fun f => FilterCall f type) fs
          /\ exists v wa, data hunk w = (Ok v, wa) /\ same_heap wa w').
Proof.
  unfold apply_func_body. unfold bind at 1.
  destruct (data hunk w) as [[v | e] wa] eqn:Hd; intros H.
  - destruct (data_events _ _ _ _ Hd) as (evs1 & Hl1 & He1).
    apply hunk_events_no_calls in He1 as [Hc1 Ht1].
    unfold bind at 1 in H.
    destruct (open_stream v wa) as [[d | e] wb] eqn:Ho.
    + apply open_stream_world in Ho as ->.
      apply chain_events in H as (Hh & evs2 & Hl2 & Ht2 & Hok).
      exists (evs1 ++ evs2)%list. split; [|split].
      * by rewrite Hl2, Hl1, <- app_assoc.
      * by rewrite tool_cache_accesses_app, Ht1, Ht2.
      * intros out ->. split.
        -- rewrite filter_calls_app, Hc1, (Hok out eq_refl). simpl.
           apply filter_calls_of_calls.
        -- by exists v, wa.
    + apply open_stream_world in Ho as ->.
      simplify_eq. exists evs1. by repeat split.
  - simplify_eq. destruct (data_events _ _ _ _ Hd) as (evs1 & Hl1 & He1).
    apply hunk_events_no_calls in He1 as [Hc1 Ht1].
    exists evs1. by repeat split.
Qed.

(** ** Cache access *)

Lemma cache_get_events (cid : nat) (k : Key) (w : World) (r : Result PyVal)
  (w' : World) :
  cache_get cid k w = (r, w') ->
  exists evs, log w' = (log w ++ CacheGet cid k :: evs)%list
              /\ Forall (fun e => is_hunk_event e = true) evs.
Proof.
  unfold cache_get, resolve, cache_lookup, __hash__. mrun.
  destruct k as [h fs ty | args fs ty ck | what url].
  - destruct (data h (add_event (CacheGet cid (KApply h fs ty)) w))
      as [[v | e] wa] eqn:Hd; intros H; simplify_eq;
      destruct (data_events _ _ _ _ Hd) as (evs & Hl & He); simpl in Hl;
      exists evs; by rewrite Hl, <- app_assoc.
  - intros H. simplify_eq. by exists [].
  - intros H. simplify_eq. by exists [].
Qed.

Lemma cache_get_calls (cid : nat) (k : Key) (w : World) (r : Result PyVal)
  (w' : World) :
  cache_get cid k w = (r, w') -> filter_calls (log w') = filter_calls (log w).
Proof.
  intros H. apply cache_get_events in H as (evs & -> & He).
  apply hunk_events_no_calls in He as [Hc _].
  rewrite filter_calls_app. change (CacheGet cid k :: evs) with ([CacheGet cid k] ++ evs)%list.
  rewrite filter_calls_app, Hc. simpl. by rewrite app_nil_r.
Qed.

(** After the hunk of a key has been read once, [cache.set] on that key
    goes through. *)
Lemma cache_set_after_read (cid : nat) (hunk : Hunk) (fs : list Filter)
  (type : string) (content v : PyVal) (w0 wa w2 : World) :
  data hunk w0 = (Ok v, wa) ->
  same_heap wa w2 ->
  exists w3 evs,
    cache_set cid (KApply hunk fs type) content w2 = (Ok tt, w3)
    /\ log w3 = (log w2 ++ CacheSet cid (KApply hunk fs type) content :: evs)%list
    /\ Forall (fun e => is_hunk_event e = true) evs.
Proof.
  intros Hd Hh.
  set (e := CacheSet cid (KApply hunk fs type) content).
  destruct (data_again _ _ _ _ Hd (add_event e w2)) as (v' & w3 & Hd' & _).
  { eapply same_heap_trans; [exact Hh | apply same_heap_add_event]. }
  destruct (data_events _ _ _ _ Hd') as (evs & Hl & He). simpl in Hl.
  eexists _, evs. unfold cache_set, resolve, cache_store, __hash__. mrun.
  fold e. rewrite Hd'. split; [reflexivity|]. split; [|exact He].
  simpl. by rewrite Hl, <- app_assoc.
Qed.

(** ** [_wrap_cache] *)

Lemma wrap_cache_hit (self : FilterTool) (cid : nat) (key : Key)
  (func : M Content) (w w1 : World) (content : PyVal) :
  cache self = Some cid ->
  no_cache_read self = false ->
  cache_get cid key w = (Ok content, w1) ->
  in_False_None content = false ->
  _wrap_cache self key func w = (Ok (in_memory w1 content), bump w1).
Proof.
  intros Hc Hn Hg Hin. unfold _wrap_cache. rewrite Hc, Hn. simpl.
  unfold bind at 1. rewrite Hg, Hin. done.
Qed.

Lemma cache_missed_calls (self : FilterTool) (cid : nat) (key : Key)
  (w w1 : World) :
  cache_missed self cid key w w1 ->
  filter_calls (log w1) = filter_calls (log w).
Proof.
  intros [[_ ->] | (_ & absent & Hg & _)]; [done|].
  by apply cache_get_calls in Hg.
Qed.

Lemma wrap_cache_miss (self : FilterTool) (cid : nat) (key : Key)
  (func : M Content) (w w1 w2 w3 : World) (out : Content) :
  cache self = Some cid ->
  cache_missed self cid key w w1 ->
  func w1 = (Ok out, w2) ->
  cache_set cid key (content_val out) w2 = (Ok tt, w3) ->
  _wrap_cache self key func w
  = (Ok (in_memory w3 (content_val out)), bump w3).
Proof.
  intros Hc Hm Hf Hs. unfold _wrap_cache. rewrite Hc.
  assert (Hcompute :
    (out <- func ;;
     (cache_set cid key (content_val out)) ;;;
     new_MemoryHunk (MVal (content_val out)) None) w1
    = (Ok (in_memory w3 (content_val out)), bump w3)).
  { unfold bind at 1. rewrite Hf. unfold bind at 1. by rewrite Hs. }
  destruct Hm as [[Hn ->] | (Hn & absent & Hg & Hin)]; rewrite Hn; simpl.
  - exact Hcompute.
  - unfold bind at 1. rewrite Hg, Hin. simpl. exact Hcompute.
Qed.

Lemma wrap_cache_none (self : FilterTool) (key : Key) (func : M Content)
  (w : World) :
  cache self = None ->
  _wrap_cache self key func w
  = match func w with
    | (Ok out, w') => (Ok (in_memory w' (content_val out)), bump w')
    | (Raise e, w') => (Raise e, w')
    end.
Proof.
  intros Hc. unfold _wrap_cache. rewrite Hc. unfold bind at 1.
  by destruct (func w) as [[out | e] w'].
Qed.

(** The key and the function [apply] hands to [_wrap_cache]. *)
Lemma apply_key (self : FilterTool) (hunk : Hunk) (filters : list Filter)
  (type : string) (kw : option Kwargs) :
  type = "input" \/ type = "output" ->
  let selected :=
    List.filter (fun f => bool_decide (is_Some (getattr_transform f type)))
                filters in
  selected <> [] ->
  apply self hunk filters type kw
  = _wrap_cache self (KApply hunk selected type)
                (apply_func_body self hunk selected type kw).
Proof.
  intros Hty selected Hne. unfold apply.
  rewrite (str_in_transforms _ Hty). simpl. fold selected.
  by destruct selected.
Qed.

(** The key and the function [apply_func] hands to [_wrap_cache]. *)
Lemma apply_func_key (self : FilterTool) (filters : list Filter)
  (type : string) (args : list PyVal) (kw : option Kwargs)
  (cache_key : option (list PyVal)) (f : Filter) :
  type = "open" \/ type = "concat" ->
  List.filter (fun f => bool_decide (is_Some (getattr_func f type))) filters
  = [f] ->
  apply_func self filters type args kw cache_key
  = _wrap_cache self (KFunc args [f] type (default [] cache_key))
                (producer_body self f type args kw).
Proof.
  intros Hty Hone. unfold apply_func.
  rewrite (str_in_funcs _ Hty). simpl. by rewrite Hone.
Qed.

Lemma producer_events (self : FilterTool) (f : Filter) (type : string)
  (args : list PyVal) (kw : option Kwargs) (w : World) (r : Result Content)
  (w' : World) :
  producer_body self f type args kw w = (r, w') ->
  exists evs,
    log w' = (log w ++ evs)%list
    /\ tool_cache_accesses evs = []
    /\ (forall out, r = Ok out -> evs = [FilterCall f type]).
Proof.
  unfold producer_body. destruct (getattr_func f type) as [method|]; mrun.
  - destruct (method args (kwargs_final self kw)); intros H; simplify_eq;
      by exists [FilterCall f type].
  - intros H. simplify_eq. exists []. by rewrite app_nil_r.
Qed.

Lemma cache_set_func (cid : nat) (args : list PyVal) (fs : list Filter)
  (type : string) (ck : list PyVal) (content : PyVal) (w : World) :
  exists w3,
    cache_set cid (KFunc args fs type ck) content w = (Ok tt, w3)
    /\ log w3 = (log w ++ [CacheSet cid (KFunc args fs type ck) content])%list.
Proof. by eexists. Qed.

(** ** The chain and the producer, run *)

Lemma add_events_nil (w : World) : add_events [] w = w.
Proof. destruct w. unfold add_events. simpl. by rewrite app_nil_r. Qed.

Lemma add_event_first (e : Event) (evs : list Event) (w : World) :
  add_events evs (add_event e w) = add_events (e :: evs) w.
Proof. unfold add_events, add_event. simpl. by rewrite <- app_assoc. Qed.

Lemma chain_run (type : string) (kw : Kwargs) (fs : list Filter) :
  forall (d out : Content) (w : World),
    chain_output type kw fs d = Some out ->
    foldM (run_transform type kw) fs d w
    = (Ok out, add_events (calls type fs) w).
Proof.
  induction fs as [|f fs IH]; intros d out w H; simpl in H.
  - simplify_eq. simpl. unfold ret. by rewrite add_events_nil.
  - destruct (getattr_transform f type) as [method|] eqn:Hm; [|done].
    destruct (method d kw) as [p | err] eqn:Hp; [|done].
    simpl. unfold bind at 1, run_transform at 1. rewrite Hm. mrun. rewrite Hp.
    rewrite (IH _ _ _ H). by rewrite add_event_first.
Qed.

Lemma body_run (self : FilterTool) (hunk : Hunk) (fs : list Filter)
  (type : string) (kw : option Kwargs) (h : PyVal) (d : Content)
  (w w1 : World) :
  data hunk w = (Ok h, w1) ->
  open_stream h w1 = (Ok d, w1) ->
  apply_func_body self hunk fs type kw w
  = foldM (run_transform type (kwargs_final self kw)) fs d w1.
Proof.
  intros Hd Ho. unfold apply_func_body. unfold bind at 1. rewrite Hd.
  unfold bind at 1. by rewrite Ho.
Qed.

Lemma producer_run (self : FilterTool) (f : Filter) (type : string)
  (args : list PyVal) (kw : option Kwargs)
  (method : list PyVal -> Kwargs -> Written) (p : string) (w : World) :
  getattr_func f type = Some method ->
  method args (kwargs_final self kw) = Wrote p ->
  producer_body self f type args kw w
  = (Ok (Text p), add_event (FilterCall f type) w).
Proof.
  intros Hm Hp. unfold producer_body. rewrite Hm. mrun. by rewrite Hp.
Qed.

(** C2: with a cache store configured, [apply] and [apply_func] return a
    new in-memory hunk of the content a cache [get] on their key gives,
    without calling a filter method, unless [no_cache_read] is set; when
    the [get] gives [False] or [None], or when [no_cache_read] is set, the
    methods of the filters run: for [apply] every transform of the chain,
    once and in list order, on the [data()] of the hunk, and for
    [apply_func] the one producer on the arguments.  What they wrote is
    passed to [set] under the same key, and a new in-memory hunk of it is
    returned. *)
Theorem cache_read_compute_write (self : FilterTool) (cid : nat) :
  cache self = Some cid ->
  (forall hunk filters type kw w,
     type = "input" \/ type = "output" ->
     let selected :=
       List.filter (fun f => bool_decide (is_Some (getattr_transform f type)))
                   filters in
     let key := KApply hunk selected type in
     selected <> [] ->
     (forall content w1,
        no_cache_read self = false ->
        cache_get cid key w = (Ok content, w1) ->
        in_False_None content = false ->
        apply self hunk filters type kw w
        = (Ok (in_memory w1 content), bump w1)
        /\ data (in_memory w1 content) (bump w1) = (Ok content, bump w1)
        /\ filter_calls (log (bump w1)) = filter_calls (log w))
     /\ (forall w1 h w1' d out,
           cache_missed self cid key w w1 ->
           data hunk w1 = (Ok h, w1') ->
           open_stream h w1' = (Ok d, w1') ->
           chain_output type (kwargs_final self kw) selected d = Some out ->
           let w2 := add_events (calls type selected) w1' in
           exists w3,
             cache_set cid key (content_val out) w2 = (Ok tt, w3)
             /\ apply self hunk filters type kw w
                = (Ok (in_memory w3 (content_val out)), bump w3)
             /\ data (in_memory w3 (content_val out)) (bump w3)
                = (Ok (content_val out), bump w3)
             /\ filter_calls (log (bump w3))
                = (filter_calls (log w) ++ calls type selected)%list
             /\ In (CacheSet cid key (content_val out)) (log (bump w3))))
  /\ (forall filters type args kw cache_key f w,
        type = "open" \/ type = "concat" ->
        List.filter (fun f => bool_decide (is_Some (getattr_func f type)))
                    filters = [f] ->
        let key := KFunc args [f] type (default [] cache_key) in
        (forall content w1,
           no_cache_read self = false ->
           cache_get cid key w = (Ok content, w1) ->
           in_False_None content = false ->
           apply_func self filters type args kw cache_key w
           = (Ok (in_memory w1 content), bump w1)
           /\ data (in_memory w1 content) (bump w1) = (Ok content, bump w1)
           /\ filter_calls (log (bump w1)) = filter_calls (log w))
        /\ (forall w1 method p,
              cache_missed self cid key w w1 ->
              getattr_func f type = Some method ->
              method args (kwargs_final self kw) = Wrote p ->
              let w2 := add_event (FilterCall f type) w1 in
              exists w3,
                cache_set cid key (VStr p) w2 = (Ok tt, w3)
                /\ apply_func self filters type args kw cache_key w
                   = (Ok (in_memory w3 (VStr p)), bump w3)
                /\ data (in_memory w3 (VStr p)) (bump w3)
                   = (Ok (VStr p), bump w3)
                /\ filter_calls (log (bump w3))
                   = (filter_calls (log w) ++ [FilterCall f type])%list
                /\ In (CacheSet cid key (VStr p)) (log (bump w3))
                /\ store_get (RFunc args [f] type (default [] cache_key))
                             (store_of cid (bump w3))
                   = VStr p)).
Proof.
  intros Hc. split.
  - intros hunk filters type kw w Hty selected key Hne.
    rewrite (apply_key self hunk filters type kw Hty Hne).
    fold selected. fold key. split.
    + intros content w1 Hn Hg Hin. split; [|split].
      * by apply (wrap_cache_hit self cid).
      * done.
      * simpl. by apply cache_get_calls in Hg.
    + intros w1 h w1' d out Hm Hd Ho Hch w2.
      assert (Hf : apply_func_body self hunk selected type kw w1
                   = (Ok out, w2)).
      { rewrite (body_run _ _ _ _ _ _ _ _ _ Hd Ho). by apply chain_run. }
      destruct (apply_body_events _ _ _ _ _ _ _ _ Hf) as (evs & Hl & _ & Hok).
      destruct (Hok out eq_refl) as (Hcalls & v & wa & Hd' & Hh).
      destruct (cache_set_after_read cid hunk selected type (content_val out)
                  v w1 wa w2 Hd' Hh) as (w3 & evs' & Hs & Hl' & He').
      exists w3. split; [exact Hs|]. split; [|split; [done|split]].
      * by apply (wrap_cache_miss self cid key _ w w1 w2 w3).
      * simpl. rewrite Hl', Hl.
        apply hunk_events_no_calls in He' as [Hc' _].
        change (CacheSet cid (KApply hunk selected type) (content_val out) :: evs')
          with ([CacheSet cid (KApply hunk selected type) (content_val out)]
                ++ evs')%list.
        rewrite !filter_calls_app, Hc', Hcalls. simpl.
        rewrite !app_nil_r. by rewrite (cache_missed_calls _ _ _ _ _ Hm).
      * simpl. rewrite Hl'. apply in_or_app. right. by left.
  - intros filters type args kw cache_key f w Hty Hone key.
    rewrite (apply_func_key self filters type args kw cache_key f Hty Hone).
    fold key. split.
    + intros content w1 Hn Hg Hin. split; [|split].
      * by apply (wrap_cache_hit self cid).
      * done.
      * simpl. by apply cache_get_calls in Hg.
    + intros w1 method p Hm Hmeth Hp w2.
      pose proof (producer_run self f type args kw method p w1 Hmeth Hp)
        as Hf.
      fold w2 in Hf.
      destruct (cache_set_func cid args [f] type (default [] cache_key)
                  (VStr p) w2) as (w3 & Hs & Hl').
      exists w3. split; [exact Hs|].
      split; [|split; [done|split; [|split]]].
      * by apply (wrap_cache_miss self cid key _ w w1 w2 w3 (Text p)).
      * simpl. rewrite Hl'. unfold w2. simpl. rewrite !filter_calls_app.
        simpl. rewrite app_nil_r.
        by rewrite (cache_missed_calls _ _ _ _ _ Hm).
      * simpl. rewrite Hl'. apply in_or_app. right. by left.
      * unfold cache_set, resolve, cache_store in Hs. mrun.
        injection Hs as <-.
        unfold store_of. simpl. rewrite lookup_insert_eq. simpl.
        apply store_get_set.
Qed.

(** ** [FilterTool] without a cache store *)

Lemma apply_tool_accesses_none (self : FilterTool) (hunk : Hunk)
  (filters : list Filter) (type : string) (kw : option Kwargs) (w : World) :
  cache self = None ->
  tool_cache_accesses (log (snd (apply self hunk filters type kw w)))
  = tool_cache_accesses (log w).
Proof.
  intros Hc. unfold apply.
  destruct (str_in type VALID_TRANSFORMS); simpl; [|done].
  destruct (List.filter _ filters) as [|f fs] eqn:E; [done|].
  rewrite wrap_cache_none by done.
  destruct (apply_func_body self hunk (f :: fs) type kw w) as [r w'] eqn:Hf.
  destruct (apply_body_events _ _ _ _ _ _ _ _ Hf) as (evs & Hl & Ht & _).
  assert (tool_cache_accesses (log w') = tool_cache_accesses (log w)) as <-.
  { by rewrite Hl, tool_cache_accesses_app, Ht, app_nil_r. }
  by destruct r.
Qed.

Lemma apply_func_tool_accesses_none (self : FilterTool)
  (filters : list Filter) (type : string) (args : list PyVal)
  (kw : option Kwargs) (cache_key : option (list PyVal)) (w : World) :
  cache self = None ->
  tool_cache_accesses
    (log (snd (apply_func self filters type args kw cache_key w)))
  = tool_cache_accesses (log w).
Proof.
  intros Hc. unfold apply_func.
  destruct (str_in type VALID_FUNCS); simpl; [|done].
  destruct (List.filter _ filters) as [|f fs] eqn:E; [done|].
  destruct (Nat.ltb 1 (length (f :: fs))); [done|].
  rewrite wrap_cache_none by done.
  destruct (producer_body self f type args kw w) as [r w'] eqn:Hf.
  destruct (producer_events _ _ _ _ _ _ _ _ Hf) as (evs & Hl & Ht & _).
  assert (tool_cache_accesses (log w') = tool_cache_accesses (log w)) as <-.
  { by rewrite Hl, tool_cache_accesses_app, Ht, app_nil_r. }
  by destruct r.
Qed.

(** C10 (amended): a [FilterTool] without a cache store never logs a cache
    [get] or [set] on one of its keys, whatever [apply] and [apply_func]
    are given; an [apply] call with at least one applicable filter, and an
    [apply_func] call with exactly one, whose chain or producer completes
    returns a new in-memory hunk of the content just computed. *)
Theorem no_cache_store (self : FilterTool) :
  cache self = None ->
  (forall hunk filters type kw w,
     tool_cache_accesses (log (snd (apply self hunk filters type kw w)))
     = tool_cache_accesses (log w))
  /\ (forall filters type args kw cache_key w,
        tool_cache_accesses
          (log (snd (apply_func self filters type args kw cache_key w)))
        = tool_cache_accesses (log w))
  /\ (forall hunk filters type kw w out w',
        type = "input" \/ type = "output" ->
        let selected :=
          List.filter
            (fun f => bool_decide (is_Some (getattr_transform f type)))
            filters in
        selected <> [] ->
        apply_func_body self hunk selected type kw w = (Ok out, w') ->
        apply self hunk filters type kw w
        = (Ok (in_memory w' (content_val out)), bump w')
        /\ data (in_memory w' (content_val out)) (bump w')
           = (Ok (content_val out), bump w')
        /\ filter_calls (log (bump w'))
           = (filter_calls (log w)
              ++ map (fun f => FilterCall f type) selected)%list)
  /\ (forall filters type args kw cache_key f w out w',
        type = "open" \/ type = "concat" ->
        List.filter (fun f => bool_decide (is_Some (getattr_func f type)))
                    filters = [f] ->
        producer_body self f type args kw w = (Ok out, w') ->
        apply_func self filters type args kw cache_key w
        = (Ok (in_memory w' (content_val out)), bump w')
        /\ data (in_memory w' (content_val out)) (bump w')
           = (Ok (content_val out), bump w')
        /\ filter_calls (log (bump w'))
           = (filter_calls (log w) ++ [FilterCall f type])%list).
Proof.
  intros Hc. split; [|split; [|split]].
  - intros. by apply apply_tool_accesses_none.
  - intros. by apply apply_func_tool_accesses_none.
  - intros hunk filters type kw w out w' Hty selected Hne Hf.
    rewrite (apply_key self hunk filters type kw Hty Hne). fold selected.
    rewrite wrap_cache_none by done. rewrite Hf.
    split; [done|]. split; [done|]. simpl.
    destruct (apply_body_events _ _ _ _ _ _ _ _ Hf) as (evs & Hl & _ & Hok).
    destruct (Hok out eq_refl) as [Hcalls _].
    by rewrite Hl, filter_calls_app, Hcalls.
  - intros filters type args kw cache_key f w out w' Hty Hone Hf.
    rewrite (apply_func_key self filters type args kw cache_key f Hty Hone).
    rewrite wrap_cache_none by done. rewrite Hf.
    split; [done|]. split; [done|]. simpl.
    destruct (producer_events _ _ _ _ _ _ _ _ Hf) as (evs & Hl & _ & Hok).
    by rewrite Hl, (Hok out eq_refl), filter_calls_app.
Qed.

(** ** [UrlHunk.data] and the environment's cache *)

(** Building the request only logs the cache read. *)
Lemma request_world (url : string) (env : option Env) (w : World)
  (r : Result Request) (w0 : World) :
  UrlHunk_request url env w = (r, w0) ->
  net w0 = net w /\ url_data w0 = url_data w /\ stores w0 = stores w
  /\ body_reads (log w0) = body_reads (log w).
Proof.
  unfold UrlHunk_request, unpack2, url_cache_get, cache_lookup. mrun. intros H.
  repeat (case_match; simplify_eq/=); repeat split; try done;
    unfold body_reads; by rewrite List.filter_app, app_nil_r.
Qed.

Lemma request_with_validators (url : string) (env : Env) (cid : nat)
  (etag lmod : PyVal) (w : World) :
  env_cache env = Some cid ->
  store_get (RUrl "headers" url) (store_of cid w) = VPair etag lmod ->
  UrlHunk_request url (Some env) w
  = (Ok (conditional_request url etag lmod),
     add_event (CacheGet cid (KUrl "headers" url)) w).
Proof.
  intros Hc Hs. unfold UrlHunk_request, unpack2, url_cache_get, cache_lookup. mrun.
  rewrite Hc. unfold store_of in *. simpl. by rewrite Hs.
Qed.

(** What the first fetch leaves in the store of the cache. *)
Lemma url_entries (url : string) (headers body : PyVal)
  (s : list (RKey * PyVal)) :
  let s' := store_set (RUrl "contents" url) body
              (store_set (RUrl "headers" url) headers s) in
  store_get (RUrl "headers" url) s' = headers
  /\ store_get (RUrl "contents" url) s' = body.
Proof.
  unfold store_get, store_set. simpl. by rewrite String.eqb_refl.
Qed.

(** What [UrlHunk.data] does with an environment cache when the [headers]
    object of a response has a [getheader] method: it returns the body and
    stores the validators and the body in the cache under the url; a later
    hunk for the url whose conditional request is answered 304 returns the
    cached body, and no body is transferred.  Whatever the [headers] object,
    an HTTP error other than 304, or any other transport error, is raised
    to the caller. *)
Lemma url_hunk_conditional_fetch (i : nat) (url : string) (env : Env)
  (cid : nat) (w : World) (request : Request) (w0 : World) :
  env_cache env = Some cid ->
  url_data w !! i = None ->
  UrlHunk_request url (Some env) w = (Ok request, w0) ->
  let hunk := {| oid := i; kind := UrlHunk url (Some env) |} in
  (forall body header,
     let etag := header "ETag" in
     let lmod := header "Last-Modified" in
     net w request = Response body (Some header) ->
     exists w',
       data hunk w = (Ok (VBytes body), w')
       /\ store_get (RUrl "headers" url) (store_of cid w') = VPair etag lmod
       /\ store_get (RUrl "contents" url) (store_of cid w') = VBytes body
       /\ In (CacheSet cid (KUrl "headers" url) (VPair etag lmod)) (log w')
       /\ In (CacheSet cid (KUrl "contents" url) (VBytes body)) (log w')
       /\ data hunk w' = (Ok (VBytes body), w')
       /\ forall j w2,
            url_data w2 !! j = None ->
            store_of cid w2 = store_of cid w' ->
            net w2 (conditional_request url etag lmod) = HTTPErr 304 ->
            exists w3,
              data {| oid := j; kind := UrlHunk url (Some env) |} w2
              = (Ok (VBytes body), w3)
              /\ body_reads (log w3) = body_reads (log w2))
  /\ (forall code,
        net w request = HTTPErr code -> code <> 304%Z ->
        data hunk w = (Raise (HTTPError code), add_event (UrlOpen request) w0))
  /\ (net w request = URLErr ->
      data hunk w = (Raise URLError, add_event (UrlOpen request) w0)).
Proof.
  intros Hc Hmemo Hreq hunk.
  destruct (request_world _ _ _ _ _ Hreq) as (Hnet & Hud & Hst & Hbr).
  split; [|split].
  - intros body header etag lmod Hresp.
    eexists. split; [|split; [|split; [|split; [|split; [|split]]]]].
    + unfold hunk, data, UrlHunk_data. simpl. unfold bind at 1, gets at 1.
      rewrite Hmemo. unfold bind at 1. rewrite Hreq. mrun.
      rewrite Hnet, Hresp, Hc. reflexivity.
    + unfold url_cache_set, cache_store, store_of. simpl.
      rewrite !lookup_insert_eq. simpl. apply url_entries.
    + unfold url_cache_set, cache_store, store_of. simpl.
      rewrite !lookup_insert_eq. simpl. apply url_entries.
    + simpl. apply in_or_app. left. apply in_or_app. right. by left.
    + simpl. apply in_or_app. right. by left.
    + unfold hunk, data, UrlHunk_data. simpl. unfold bind at 1, gets at 1.
      simpl. by rewrite lookup_insert_eq.
    + intros j w2 Hj Hstore H304.
      assert (Hhead : store_get (RUrl "headers" url) (store_of cid w2)
                      = VPair etag lmod).
      { rewrite Hstore. unfold store_of. simpl.
        rewrite !lookup_insert_eq. simpl. apply url_entries. }
      assert (Hbody : store_get (RUrl "contents" url) (store_of cid w2)
                      = VBytes body).
      { rewrite Hstore. unfold store_of. simpl.
        rewrite !lookup_insert_eq. simpl. apply url_entries. }
      eexists. split.
      * unfold data, UrlHunk_data. simpl. unfold bind at 1, gets at 1.
        rewrite Hj. unfold bind at 1.
        rewrite (request_with_validators url env cid etag lmod w2 Hc Hhead).
        unfold env_cache_attr, url_cache_get, cache_lookup. mrun.
        rewrite H304, Hc. simpl. unfold store_of in *. simpl.
        rewrite Hbody. reflexivity.
      * simpl. unfold body_reads. rewrite !List.filter_app. simpl.
        by rewrite !app_nil_r.
  - intros code Hcode Hne.
    unfold hunk, data, UrlHunk_data. simpl. unfold bind at 1, gets at 1.
    rewrite Hmemo. unfold bind at 1. rewrite Hreq. mrun.
    rewrite Hnet, Hcode. by apply Z.eqb_neq in Hne as ->.
  - intros Hurl.
    unfold hunk, data, UrlHunk_data. simpl. unfold bind at 1, gets at 1.
    rewrite Hmemo. unfold bind at 1. rewrite Hreq. mrun.
    by rewrite Hnet, Hurl.
Qed.

(** C8: with an environment cache, the first [data()] call of a [UrlHunk]
    that gets a response from Python 3's [urlopen] reads the body and then
    raises [AttributeError] at [response.headers.getheader]: no cache [set]
    is reached, the stores are left as they were, and neither the validators
    nor the body are in the cache afterwards; only the hunk itself keeps the
    body, which a second [data()] call on it returns. *)
Theorem url_hunk_first_fetch_py3 (i : nat) (url : string) (env : Env)
  (cid : nat) (w : World) (request : Request) (w0 : World) (body : string) :
  env_cache env = Some cid ->
  url_data w !! i = None ->
  UrlHunk_request url (Some env) w = (Ok request, w0) ->
  net w request = py3_response body ->
  let hunk := {| oid := i; kind := UrlHunk url (Some env) |} in
  let w' := set_url_data i (VBytes body)
              (add_event (BodyRead url) (add_event (UrlOpen request) w0)) in
  data hunk w = (Raise AttributeError, w')
  /\ stores w' = stores w
  /\ log w' = (log w0 ++ [UrlOpen request; BodyRead url])%list
  /\ data hunk w' = (Ok (VBytes body), w').
Proof.
  intros Hc Hmemo Hreq Hresp hunk w'.
  destruct (request_world _ _ _ _ _ Hreq) as (Hnet & Hud & Hst & Hbr).
  split; [|split; [|split]].
  - unfold hunk, data, UrlHunk_data. simpl. unfold bind at 1, gets at 1.
    rewrite Hmemo. unfold bind at 1. rewrite Hreq. mrun.
    by rewrite Hnet, Hresp, Hc.
  - exact Hst.
  - simpl. by rewrite <- app_assoc.
  - unfold hunk, data, UrlHunk_data. simpl. unfold bind at 1, gets at 1.
    simpl. by rewrite lookup_insert_eq.
Qed.

(** * Further properties *)

(** ** [UrlHunk.data]: memo, answers, errors *)

(** X1: a [UrlHunk] whose [data()] has returned a value keeps it in
    [_data]: every later [data()] call on the same object, whatever the
    network, the cache and the rest of the world have become, returns that
    value and changes nothing. *)
Theorem url_hunk_memoized (i : nat) (url : string) (env : option Env)
  (v : PyVal) (w w1 : World) :
  let hunk := {| oid := i; kind := UrlHunk url env |} in
  data hunk w = (Ok v, w1) ->
  url_data w1 !! i = Some v
  /\ forall w2, url_data w2 !! i = url_data w1 !! i ->
                data hunk w2 = (Ok v, w2).
Proof.
  intros hunk H.
  assert (Hmemo : url_data w1 !! i = Some v).
  { revert H. unfold hunk, data. simpl.
    unfold UrlHunk_data, UrlHunk_request, unpack2, env_cache_attr,
      url_cache_get, url_cache_set, cache_lookup, cache_store, store_of.
    mrun. intros H.
    repeat (case_match; simplify_eq/=); try done;
      by rewrite lookup_insert_eq. }
  split; [exact Hmemo|].
  intros w2 Hw2. rewrite Hmemo in Hw2.
  unfold hunk, data, UrlHunk_data. simpl. unfold bind, gets. by rewrite Hw2.
Qed.

(** X2: with an environment cache, a fetch answered 304 makes [data()]
    return what the cache holds under [('url', 'contents', url)], which is
    [None] when the cache has no such entry; the value is kept in [_data],
    no body is transferred and no store changes. *)
Theorem url_hunk_not_modified (i : nat) (url : string) (env : Env)
  (cid : nat) (w : World) (request : Request) (w0 : World) :
  env_cache env = Some cid ->
  url_data w !! i = None ->
  UrlHunk_request url (Some env) w = (Ok request, w0) ->
  net w request = HTTPErr 304 ->
  let hunk := {| oid := i; kind := UrlHunk url (Some env) |} in
  let cached := store_get (RUrl "contents" url) (store_of cid w) in
  exists w',
    data hunk w = (Ok cached, w')
    /\ url_data w' !! i = Some cached
    /\ stores w' = stores w
    /\ body_reads (log w') = body_reads (log w)
    /\ (List.find (fun e => rkey_eq (RUrl "contents" url) (fst e))
                  (store_of cid w) = None ->
        cached = VNone).
Proof.
  intros Hc Hmemo Hreq H304 hunk cached.
  destruct (request_world _ _ _ _ _ Hreq) as (Hnet & Hud & Hst & Hbr).
  assert (Hstore : store_of cid w0 = store_of cid w)
    by (unfold store_of; by rewrite Hst).
  eexists. split; [|split; [|split; [|split]]].
  - unfold hunk, data, UrlHunk_data. simpl. unfold bind at 1, gets at 1.
    rewrite Hmemo. unfold bind at 1. rewrite Hreq.
    unfold env_cache_attr, url_cache_get, cache_lookup. mrun.
    rewrite Hnet, H304, Hc. simpl.
    change (store_of cid (add_event (CacheGet cid (KUrl "contents" url))
                            (add_event (UrlOpen request) w0)))
      with (store_of cid w0).
    rewrite Hstore. reflexivity.
  - simpl. by rewrite lookup_insert_eq.
  - exact Hst.
  - simpl. unfold body_reads in *. rewrite !List.filter_app. simpl.
    by rewrite !app_nil_r.
  - intros Hnone. unfold cached, store_get. by rewrite Hnone.
Qed.

(** X3: an HTTP error other than 304, and a transport error that is no
    [HTTPError], leave [data()] by that exception; nothing is kept in
    [_data] and no store changes, so the next call fetches again. *)
Theorem url_hunk_error_not_memoized (i : nat) (url : string)
  (env : option Env) (w : World) (request : Request) (w0 : World)
  (e : Exn) :
  url_data w !! i = None ->
  UrlHunk_request url env w = (Ok request, w0) ->
  (exists code, net w request = HTTPErr code /\ code <> 304%Z
                /\ e = HTTPError code)
  \/ (net w request = URLErr /\ e = URLError) ->
  let hunk := {| oid := i; kind := UrlHunk url env |} in
  let w' := add_event (UrlOpen request) w0 in
  data hunk w = (Raise e, w')
  /\ url_data w' !! i = None
  /\ stores w' = stores w.
Proof.
  intros Hmemo Hreq Herr hunk w'.
  destruct (request_world _ _ _ _ _ Hreq) as (Hnet & Hud & Hst & Hbr).
  split; [|split].
  - unfold hunk, data, UrlHunk_data. simpl. unfold bind at 1, gets at 1.
    rewrite Hmemo. unfold bind at 1. rewrite Hreq. mrun. rewrite Hnet.
    destruct Herr as [(code & -> & Hne & ->) | [-> ->]]; [|done].
    by apply Z.eqb_neq in Hne as ->.
  - simpl. by rewrite Hud.
  - exact Hst.
Qed.

(** X4: a [UrlHunk] without an environment, or with one that has no
    cache, sends a request without validators and touches no cache; a
    response gives its body, whether or not its [headers] object has
    [getheader]; an answer 304 ends in an [AttributeError], since the
    handler reads [self.env.cache] unguarded. *)
Theorem url_hunk_without_cache (i : nat) (url : string) (env : option Env)
  (w : World) :
  env_and_cache env = None ->
  url_data w !! i = None ->
  let hunk := {| oid := i; kind := UrlHunk url env |} in
  let request := {| req_url := url; req_headers := [] |} in
  let w0 := add_event (UrlOpen request) w in
  (forall body getheader,
     net w request = Response body getheader ->
     data hunk w
     = (Ok (VBytes body),
        set_url_data i (VBytes body) (add_event (BodyRead url) w0)))
  /\ (net w request = HTTPErr 304 ->
      data hunk w = (Raise AttributeError, w0))
  /\ (forall r w',
        data hunk w = (r, w') ->
        stores w' = stores w
        /\ forall e, In e (log w') ->
                     In e (log w) \/ e = UrlOpen request \/ e = BodyRead url).
Proof.
  intros Hc Hmemo hunk request w0.
  assert (Hd : data hunk w
    = match net w request with
      | Response body _ =>
          (Ok (VBytes body),
           set_url_data i (VBytes body) (add_event (BodyRead url) w0))
      | HTTPErr code =>
          if negb (Z.eqb code 304) then (Raise (HTTPError code), w0)
          else (Raise AttributeError, w0)
      | URLErr => (Raise URLError, w0)
      end).
  { unfold hunk, data, UrlHunk_data, UrlHunk_request, env_cache_attr. simpl.
    unfold bind at 1, gets at 1. rewrite Hmemo, Hc. mrun.
    fold request. destruct (net w request) as [body gh | code |]; try done.
    by destruct (Z.eqb code 304). }
  split; [|split].
  - intros body gh Hresp. by rewrite Hd, Hresp.
  - intros H304. by rewrite Hd, H304.
  - intros r w' H. rewrite Hd in H.
    destruct (net w request) as [body gh | code |]; simplify_eq.
    + split; [done|]. simpl. intros e He.
      apply in_app_or in He as [He | [<- | []]]; [|by right; right].
      apply in_app_or in He as [He | [<- | []]]; [by left | by right; left].
    + destruct (negb (Z.eqb code 304)); simplify_eq; (split; [done|]);
        simpl; intros e He;
        (apply in_app_or in He as [He | [<- | []]]; [by left | by right; left]).
    + split; [done|]. simpl. intros e He.
      apply in_app_or in He as [He | [<- | []]]; [by left | by right; left].
Qed.

(** ** [save] *)

(** [data()] writes no file. *)
Lemma data_files (h : Hunk) (w : World) (r : Result PyVal) (w' : World) :
  data h w = (r, w') -> files w' = files w.
Proof.
  destruct h as [i k]. unfold data. simpl. destruct k as [fn | url env | md fs].
  - unfold FileHunk_data. mrun. intros H. by repeat case_match; simplify_eq.
  - unfold UrlHunk_data, UrlHunk_request, unpack2, env_cache_attr,
      url_cache_get, url_cache_set, cache_lookup, cache_store, store_of.
    mrun. intros H. by repeat (case_match; simplify_eq/=).
  - destruct md as [v | sid]; simpl.
    + unfold ret. intros H. by simplify_eq.
    + unfold read. intros H. by repeat case_match; simplify_eq.
Qed.

Lemma save_steps (h : Hunk) (filename : string) :
  save h filename
  = (modify (set_file filename EmptyString) ;;;
     d <- data h ;;
     b <- encoded d ;;
     modify (set_file filename b)).
Proof. unfold save, MemoryHunk_save, BaseHunk_save. by destruct (kind h). Qed.

(** X5: [save] followed by [FileHunk.data] is a round trip: when the
    [data()] of a hunk of any class is a text [s] that the codec decodes
    back from its encoding, [hunk.save(filename)] leaves [encode(s)] in the
    file and a [FileHunk] for that file has [data()] equal to [s]. *)
Theorem save_then_read (h : Hunk) (filename : string) (s : string)
  (w w1 : World) (j : nat) :
  data h (set_file filename EmptyString w) = (Ok (VStr s), w1) ->
  decode (encode s) = Some s ->
  let w2 := set_file filename (encode s) w1 in
  save h filename w = (Ok tt, w2)
  /\ files w2 !! filename = Some (encode s)
  /\ data {| oid := j; kind := FileHunk filename |} w2 = (Ok (VStr s), w2).
Proof.
  intros Hd Hcodec w2. rewrite save_steps. split; [|split].
  - mrun. by rewrite Hd.
  - simpl. by rewrite lookup_insert_eq.
  - unfold data, FileHunk_data. mrun. by rewrite lookup_insert_eq, Hcodec.
Qed.

(** X6: [save] opens the file for writing before it calls [data()]: when
    [data()] then raises, or gives a value that is no [str] (the [bytes]
    body of a [UrlHunk], [None]), [save] raises, the exception of [data()]
    or an [AttributeError], and leaves the file empty. *)
Theorem save_failure_empties_file (h : Hunk) (filename : string)
  (w : World) (r : Result PyVal) (w1 : World) :
  data h (set_file filename EmptyString w) = (r, w1) ->
  (forall s, r <> Ok (VStr s)) ->
  files w1 !! filename = Some EmptyString
  /\ save h filename w
     = (Raise match r with
              | Ok _ => AttributeError
              | Raise e => e
              end, w1).
Proof.
  intros Hd Hno. split.
  - rewrite (data_files _ _ _ _ Hd). simpl. by rewrite lookup_insert_eq.
  - rewrite save_steps. mrun. rewrite Hd.
    destruct r as [d | e]; [|done].
    destruct d; try done. by destruct (Hno s).
Qed.

(** X7: saving a [FileHunk] to its own file empties the file, whatever it
    held: the file is opened for writing, and so emptied, before it is
    read. *)
Theorem save_onto_own_file (i : nat) (filename : string) (w : World) :
  decode EmptyString = Some EmptyString ->
  encode EmptyString = EmptyString ->
  exists w2,
    save {| oid := i; kind := FileHunk filename |} filename w = (Ok tt, w2)
    /\ files w2 !! filename = Some EmptyString
    /\ forall other, other <> filename ->
                     files w2 !! other = files w !! other.
Proof.
  intros Hdec Henc. eexists. split; [|split].
  - rewrite save_steps. unfold data, FileHunk_data, encoded. mrun.
    rewrite lookup_insert_eq, Hdec, Henc. reflexivity.
  - simpl. by rewrite lookup_insert_eq.
  - intros other Hne. simpl. by rewrite !lookup_insert_ne.
Qed.

(** ** [MemoryHunk] over a stream, and equality by hash *)

Lemma set_stream_twice (sid : nat) (c : Content) (w : World) :
  set_stream sid c (set_stream sid c w) = set_stream sid c w.
Proof. unfold set_stream. simpl. by rewrite insert_insert_eq. Qed.

(** X8: a [MemoryHunk] made of a readable object gives the unread content
    on the first [data()] call and empty content on every later one; so
    comparing such a hunk with itself compares the hash of its content with
    the hash of empty content. *)
Theorem stream_hunk_read_once (i sid : nat) (fs : list string) (c : Content)
  (w : World) :
  streams w !! sid = Some c ->
  let hunk := {| oid := i; kind := MemoryHunk (MStream sid) fs |} in
  let rest := same_kind c EmptyString in
  let w1 := set_stream sid rest w in
  data hunk w = (Ok (content_val c), w1)
  /\ data hunk w1 = (Ok (content_val rest), w1)
  /\ __eq__ hunk hunk w
     = (Ok (Z.eqb (hash (content_val c)) (hash (content_val rest))), w1).
Proof.
  intros Hs hunk rest w1.
  assert (H1 : data hunk w = (Ok (content_val c), w1)).
  { unfold hunk, data. simpl. unfold read. by rewrite Hs. }
  assert (H2 : data hunk w1 = (Ok (content_val rest), w1)).
  { unfold hunk, data. simpl. unfold read, w1. simpl.
    rewrite lookup_insert_eq. fold rest.
    assert (same_kind rest EmptyString = rest) as -> by (by destruct c).
    by rewrite set_stream_twice. }
  split; [exact H1|]. split; [exact H2|].
  unfold __eq__, bind.
  by rewrite (hash_data _ _ _ _ H1), (hash_data _ _ _ _ H2).
Qed.

(** X9: on hunks whose [data()] can be read again, [==] is an equivalence
    relation that agrees with [hash], as [dict] and [set] require of a
    key; it calls [data()] on both hunks, so that a [data()] that raises
    makes [==] raise the same exception instead of giving [False], the
    right operand not being read when the left one raises. *)
Theorem hunk_eq_equivalence (h1 h2 h3 : Hunk) (v1 v2 v3 : PyVal) (w : World) :
  data h1 w = (Ok v1, w) ->
  data h2 w = (Ok v2, w) ->
  data h3 w = (Ok v3, w) ->
  __eq__ h1 h1 w = (Ok true, w)
  /\ __eq__ h1 h2 w = __eq__ h2 h1 w
  /\ (__eq__ h1 h2 w = (Ok true, w) ->
      __eq__ h2 h3 w = (Ok true, w) ->
      __eq__ h1 h3 w = (Ok true, w))
  /\ (__eq__ h1 h2 w = (Ok true, w)
      <-> exists hv, __hash__ h1 w = (Ok hv, w) /\ __hash__ h2 w = (Ok hv, w))
  /\ (forall h e w',
        data h w = (Raise e, w') ->
        (forall other, __eq__ h other w = (Raise e, w'))
        /\ __eq__ h1 h w = (Raise e, w')).
Proof.
  intros H1 H2 H3.
  pose proof (hash_data _ _ _ _ H1) as Hh1.
  pose proof (hash_data _ _ _ _ H2) as Hh2.
  pose proof (hash_data _ _ _ _ H3) as Hh3.
  assert (E : forall ha hb va vb,
            __hash__ ha w = (Ok (hash va), w) ->
            __hash__ hb w = (Ok (hash vb), w) ->
            __eq__ ha hb w = (Ok (Z.eqb (hash va) (hash vb)), w)).
  { intros ha hb va vb Ha Hb. unfold __eq__, bind. by rewrite Ha, Hb. }
  split; [|split; [|split; [|split]]].
  - rewrite (E _ _ _ _ Hh1 Hh1). by rewrite Z.eqb_refl.
  - rewrite (E _ _ _ _ Hh1 Hh2), (E _ _ _ _ Hh2 Hh1). by rewrite Z.eqb_sym.
  - rewrite (E _ _ _ _ Hh1 Hh2), (E _ _ _ _ Hh2 Hh3), (E _ _ _ _ Hh1 Hh3).
    intros A B. injection A as A. injection B as B.
    apply Z.eqb_eq in A, B. rewrite A, B. by rewrite Z.eqb_refl.
  - rewrite (E _ _ _ _ Hh1 Hh2), Hh1, Hh2. split.
    + intros A. injection A as A. apply Z.eqb_eq in A.
      exists (hash v1). by rewrite A.
    + intros (hv & A & B). simplify_eq. do 2 f_equal.
      apply Z.eqb_eq. congruence.
  - intros h e w' Hd. split.
    + intros other. unfold __eq__, __hash__, bind. by rewrite Hd.
    + unfold __eq__, bind. rewrite Hh1. unfold __hash__, bind. by rewrite Hd.
Qed.

(** ** The filter chain of [apply] *)

Lemma chain_fail (type : string) (kw : Kwargs) (pre : list Filter) :
  forall (d mid : Content) (f : Filter) (post : list Filter)
         (method : Content -> Kwargs -> Written) (e : string) (w : World),
    chain_output type kw pre d = Some mid ->
    getattr_transform f type = Some method ->
    method mid kw = Failed e ->
    foldM (run_transform type kw) (pre ++ f :: post) d w
    = (Raise (FilterFailure e), add_events (calls type (pre ++ [f])) w).
Proof.
  induction pre as [|g pre IH]; intros d mid f post method e w H Hm He;
    simpl in H.
  - simplify_eq. simpl. unfold bind at 1, run_transform at 1. rewrite Hm.
    mrun. by rewrite He.
  - destruct (getattr_transform g type) as [mg|] eqn:Hg; [|done].
    destruct (mg d kw) as [p | err] eqn:Hp; [|done].
    simpl. unfold bind at 1, run_transform at 1. rewrite Hg. mrun. rewrite Hp.
    rewrite (IH _ _ _ _ _ _ _ H Hm He). by rewrite add_event_first.
Qed.

Lemma chain_kind (type : string) (kw : Kwargs) (fs : list Filter) :
  forall (d out : Content) (w w' : World),
    foldM (run_transform type kw) fs d w = (Ok out, w') ->
    same_kind out EmptyString = same_kind d EmptyString.
Proof.
  induction fs as [|f fs IH]; intros d out w w' H; simpl in H.
  - unfold ret in H. by simplify_eq.
  - unfold bind at 1, run_transform at 1 in H.
    destruct (getattr_transform f type) as [method|]; mrun; [|done].
    destruct (method d kw) as [p | err]; [|done].
    apply IH in H. rewrite H. by destruct d.
Qed.

Lemma data_next_oid (h : Hunk) (w : World) (r : Result PyVal) (w' : World) :
  data h w = (r, w') -> next_oid w' = next_oid w.
Proof.
  intros H. pose proof (data_with_next h (next_oid w) w) as Hn.
  assert (with_next (next_oid w) w = w) as Hw by (by destruct w).
  rewrite Hw, H in Hn. simpl in Hn.
  apply (f_equal (fun x => next_oid (snd x))) in Hn. by simpl in Hn.
Qed.

Lemma filter_twice {A} (p : A -> bool) (l : list A) :
  List.filter p (List.filter p l) = List.filter p l.
Proof.
  induction l as [|x l IH]; simpl; [done|].
  destruct (p x) eqn:E; simpl; [|done]. by rewrite E, IH.
Qed.

(** X10: when every transform writes its output, the stream [apply]
    computes is the composition of the filter methods in list order, each
    called once with the merged options, in which an option of the call
    overrides the option of the tool with the same name; without a cache
    store, [apply] returns a new hunk of exactly that content. *)
Theorem apply_composes (self : FilterTool) (hunk : Hunk)
  (filters : list Filter) (type : string) (kw : option Kwargs)
  (h : PyVal) (d out : Content) (w w1 : World) :
  type = "input" \/ type = "output" ->
  let selected :=
    List.filter (fun f => bool_decide (is_Some (getattr_transform f type)))
                filters in
  selected <> [] ->
  data hunk w = (Ok h, w1) ->
  open_stream h w1 = (Ok d, w1) ->
  chain_output type (kwargs_final self kw) selected d = Some out ->
  let w2 := add_events (calls type selected) w1 in
  apply_func_body self hunk selected type kw w = (Ok out, w2)
  /\ (cache self = None ->
      apply self hunk filters type kw w
      = (Ok (in_memory w2 (content_val out)), bump w2))
  /\ (forall k v, default ∅ kw !! k = Some v ->
                  kwargs_final self kw !! k = Some v)
  /\ (forall k, default ∅ kw !! k = None ->
                kwargs_final self kw !! k = kwargs self !! k).
Proof.
  intros Hty selected Hne Hd Ho Hchain w2.
  assert (Hbody : apply_func_body self hunk selected type kw w = (Ok out, w2)).
  { rewrite (body_run _ _ _ _ _ _ _ _ _ Hd Ho). by apply chain_run. }
  split; [exact Hbody|]. split; [|split].
  - intros Hc. rewrite (apply_key self hunk filters type kw Hty Hne).
    fold selected. rewrite wrap_cache_none by done. by rewrite Hbody.
  - intros k v Hk. unfold kwargs_final. by apply lookup_union_Some_l.
  - intros k Hk. unfold kwargs_final. by apply lookup_union_r.
Qed.

(** X11: the chain keeps the kind of the stream: the content [apply]
    computes is [bytes] exactly when the [data()] of the hunk is [bytes],
    whatever the filters write. *)
Theorem apply_keeps_stream_kind (self : FilterTool) (hunk : Hunk)
  (fs : list Filter) (type : string) (kw : option Kwargs) (h : PyVal)
  (out : Content) (w w1 w' : World) :
  data hunk w = (Ok h, w1) ->
  apply_func_body self hunk fs type kw w = (Ok out, w') ->
  is_bytes (content_val out) = is_bytes h.
Proof.
  intros Hd Hb. unfold apply_func_body in Hb. unfold bind at 1 in Hb.
  rewrite Hd in Hb. unfold bind at 1 in Hb.
  destruct (open_stream h w1) as [[d | e] wb] eqn:Ho; [|done].
  apply chain_kind in Hb.
  destruct h; unfold open_stream, ret, raise in Ho; simplify_eq;
    by destruct out.
Qed.

(** X12: a filter whose method raises ends the chain: the filters after it
    are not called, and [apply], with or without a cache store, leaves by
    that exception without a cache [set] and without creating a hunk. *)
Theorem failed_chain_stops (self : FilterTool) (hunk : Hunk)
  (filters pre post : list Filter) (f : Filter) (type : string)
  (kw : option Kwargs) (h : PyVal) (d mid : Content)
  (method : Content -> Kwargs -> Written) (e : string)
  (w w0 w1 : World) :
  type = "input" \/ type = "output" ->
  List.filter (fun f => bool_decide (is_Some (getattr_transform f type)))
              filters = (pre ++ f :: post)%list ->
  (cache self = None /\ w0 = w)
  \/ (exists cid, cache self = Some cid
                  /\ cache_missed self cid
                       (KApply hunk (pre ++ f :: post) type) w w0) ->
  data hunk w0 = (Ok h, w1) ->
  open_stream h w1 = (Ok d, w1) ->
  chain_output type (kwargs_final self kw) pre d = Some mid ->
  getattr_transform f type = Some method ->
  method mid (kwargs_final self kw) = Failed e ->
  let w2 := add_events (calls type (pre ++ [f])) w1 in
  apply self hunk filters type kw w = (Raise (FilterFailure e), w2)
  /\ stores w2 = stores w1
  /\ next_oid w2 = next_oid w0.
Proof.
  intros Hty Hsel Hcache Hd Ho Hchain Hm He w2.
  assert (Hne : List.filter
                  (fun f => bool_decide (is_Some (getattr_transform f type)))
                  filters <> []) by (rewrite Hsel; by destruct pre).
  assert (Hbody : apply_func_body self hunk (pre ++ f :: post) type kw w0
                  = (Raise (FilterFailure e), w2)).
  { rewrite (body_run _ _ _ _ _ _ _ _ _ Hd Ho).
    by apply (chain_fail _ _ _ _ mid _ _ method). }
  split; [|split].
  - rewrite (apply_key self hunk filters type kw Hty Hne). rewrite Hsel.
    destruct Hcache as [[Hc ->] | (cid & Hc & Hmiss)].
    + rewrite wrap_cache_none by done. by rewrite Hbody.
    + unfold _wrap_cache. rewrite Hc.
      destruct Hmiss as [[Hn ->] | (Hn & absent & Hg & Hin)]; rewrite Hn;
        simpl.
      * unfold bind at 1. by rewrite Hbody.
      * unfold bind at 1. rewrite Hg, Hin. simpl. unfold bind at 1.
        by rewrite Hbody.
  - done.
  - simpl. by apply data_next_oid in Hd.
Qed.

(** X13: filters without the requested method count for nothing: [apply]
    and [apply_func] behave on a filter list as on the list of its filters
    that have the method, with the same cache key. *)
Theorem inapplicable_filters_ignored (self : FilterTool) (hunk : Hunk)
  (filters : list Filter) (type : string) (args : list PyVal)
  (kw : option Kwargs) (cache_key : option (list PyVal)) (w : World) :
  apply self hunk filters type kw w
  = apply self hunk
      (List.filter (fun f => bool_decide (is_Some (getattr_transform f type)))
                   filters)
      type kw w
  /\ apply_func self filters type args kw cache_key w
     = apply_func self
         (List.filter (fun f => bool_decide (is_Some (getattr_func f type)))
                      filters)
         type args kw cache_key w.
Proof.
  split.
  - unfold apply. by rewrite filter_twice.
  - unfold apply_func. by rewrite filter_twice.
Qed.

(** ** [GZip.output] *)

(** X14: [GZip.output] writes nothing to the stream it is handed: a chain
    of [output] filters that ends in [GZip] turns every text into empty
    content, which [apply] returns as its result; on a binary stream the
    method fails with an [AttributeError]. *)
Theorem gzip_output_is_empty (self : FilterTool) (hunk : Hunk)
  (filters pre : list Filter) (i : nat) (level : PyVal)
  (kw : option Kwargs) (h : PyVal) (d mid : Content) (w w1 : World) :
  cache self = None ->
  List.filter (fun f => bool_decide (is_Some (getattr_transform f "output")))
              filters = (pre ++ [GZip i level])%list ->
  data hunk w = (Ok h, w1) ->
  open_stream h w1 = (Ok d, w1) ->
  chain_output "output" (kwargs_final self kw) pre d = Some mid ->
  let w2 := add_events (calls "output" (pre ++ [GZip i level])) w1 in
  apply self hunk filters "output" kw w
  = match mid with
    | Text _ => (Ok (in_memory w2 (VStr EmptyString)), bump w2)
    | Bytes _ => (Raise (FilterFailure "AttributeError"), w2)
    end.
Proof.
  intros Hc Hsel Hd Ho Hchain w2.
  assert (Hty : "output" = "input" \/ "output" = "output") by (by right).
  assert (Hne : List.filter
                  (fun f => bool_decide (is_Some (getattr_transform f "output")))
                  filters <> []) by (rewrite Hsel; by destruct pre).
  rewrite (apply_key self hunk filters "output" kw Hty Hne). rewrite Hsel.
  rewrite wrap_cache_none by done.
  rewrite (body_run _ _ _ _ _ _ _ _ _ Hd Ho).
  destruct mid as [t | b].
  - rewrite (chain_run _ _ _ d (Text EmptyString)); [done|].
    clear Hsel Hne Hd Ho. revert d Hchain.
    induction pre as [|g pre IH]; intros d Hchain; simpl in *.
    + by simplify_eq.
    + destruct (getattr_transform g "output") as [mg|]; [|done].
      destruct (mg d (kwargs_final self kw)); [|done]. by apply IH.
  - by rewrite (chain_fail _ _ _ _ (Bytes b) _ [] GZip_output "AttributeError").
Qed.

(** ** Two calls through the cache *)

(** A hunk whose [data()] leaves the world as it is gives the same value in
    every world with the same heap. *)
Lemma data_stable (h : Hunk) (v : PyVal) (w w' : World) :
  data h w = (Ok v, w) -> same_heap w w' -> data h w' = (Ok v, w').
Proof.
  destruct h as [i k]. destruct k as [fn | url env | md fs].
  - unfold data, FileHunk_data. mrun. intros H (Hf & _ & _). rewrite <- Hf.
    destruct (files w !! fn) as [b|]; [|done].
    destruct (decode b); by simplify_eq.
  - intros H (_ & Hu & _).
    pose proof (url_memo_after _ _ _ _ _ _ H) as Hm.
    revert H. unfold data, UrlHunk_data. mrun. rewrite <- Hu, Hm.
    intros H. by simplify_eq.
  - destruct md as [v0 | sid]; unfold data; simpl.
    + unfold ret. intros H _. by simplify_eq.
    + unfold read. intros H (_ & _ & Hs). rewrite <- Hs.
      destruct (streams w !! sid) as [c|] eqn:E; [|done].
      injection H as Hv Hw. subst v. f_equal.
      apply (f_equal streams) in Hw. simpl in Hw.
      destruct w'. unfold set_stream. simpl in *. f_equal.
      by rewrite <- Hs.
Qed.

Lemma cache_get_stable (cid : nat) (h : Hunk) (fs : list Filter)
  (type : string) (v : PyVal) (w : World) :
  data h w = (Ok v, w) ->
  forall w', same_heap w w' ->
    cache_get cid (KApply h fs type) w'
    = (Ok (store_get (RApply (hash v) fs type) (store_of cid w')),
       add_event (CacheGet cid (KApply h fs type)) w').
Proof.
  intros Hd w' Hh. unfold cache_get, resolve, __hash__, cache_lookup. mrun.
  rewrite (data_stable h v w _ Hd); [done|].
  eapply same_heap_trans; [exact Hh | apply same_heap_add_event].
Qed.

Lemma cache_set_stable (cid : nat) (h : Hunk) (fs : list Filter)
  (type : string) (v c : PyVal) (w : World) :
  data h w = (Ok v, w) ->
  forall w', same_heap w w' ->
    cache_set cid (KApply h fs type) c w'
    = (Ok tt,
       set_store cid (store_set (RApply (hash v) fs type) c (store_of cid w'))
                 (add_event (CacheSet cid (KApply h fs type) c) w')).
Proof.
  intros Hd w' Hh. unfold cache_set, resolve, __hash__, cache_store. mrun.
  rewrite (data_stable h v w _ Hd); [done|].
  eapply same_heap_trans; [exact Hh | apply same_heap_add_event].
Qed.

Lemma same_heap_add_events (evs : list Event) (w : World) :
  same_heap w (add_events evs w).
Proof. by repeat split. Qed.

Lemma in_False_None_content (c : Content) :
  in_False_None (content_val c) = false.
Proof. by destruct c. Qed.

Lemma store_of_set_store (cid : nat) (s : list (RKey * PyVal)) (w : World) :
  store_of cid (set_store cid s w) = s.
Proof. unfold store_of. simpl. by rewrite lookup_insert_eq. Qed.

(** ** Content identity through the cache *)

(** A first call of [apply] that finds nothing in the cache: what it
    returns and the world it leaves. *)
Lemma apply_first_call (self : FilterTool) (cid : nat) (h : Hunk)
  (filters : list Filter) (type : string) (kw : option Kwargs) (v : PyVal)
  (d out : Content) (w : World) :
  cache self = Some cid ->
  type = "input" \/ type = "output" ->
  let selected :=
    List.filter (fun f => bool_decide (is_Some (getattr_transform f type)))
                filters in
  let key := KApply h selected type in
  selected <> [] ->
  data h w = (Ok v, w) ->
  open_stream v w = (Ok d, w) ->
  chain_output type (kwargs_final self kw) selected d = Some out ->
  no_cache_read self = true
  \/ in_False_None (store_get (RApply (hash v) selected type) (store_of cid w))
     = true ->
  let w1 := if no_cache_read self then w else add_event (CacheGet cid key) w in
  let w2 := add_events (calls type selected) w1 in
  let w3 :=
    set_store cid
      (store_set (RApply (hash v) selected type) (content_val out)
                 (store_of cid w2))
      (add_event (CacheSet cid key (content_val out)) w2) in
  apply self h filters type kw w
  = (Ok (in_memory w3 (content_val out)), bump w3).
Proof.
  intros Hc Hty selected key Hne Hd Ho Hchain Hcold w1 w2 w3.
  assert (Hh1 : same_heap w w1)
    by (unfold w1; destruct (no_cache_read self);
        [apply same_heap_refl | apply same_heap_add_event]).
  assert (Hmiss : cache_missed self cid key w w1).
  { unfold cache_missed, w1. destruct (no_cache_read self) eqn:Hn.
    - by left.
    - right. split; [done|]. destruct Hcold as [? | Hcold]; [done|].
      eexists. split; [|exact Hcold].
      apply (cache_get_stable cid h selected type v w Hd w).
      apply same_heap_refl. }
  assert (Hbody : apply_func_body self h selected type kw w1 = (Ok out, w2)).
  { rewrite (body_run self h selected type kw v d w1 w1).
    - by apply chain_run.
    - by apply (data_stable h v w).
    - destruct v; unfold open_stream, ret, raise in *; by simplify_eq. }
  assert (Hh2 : same_heap w w2).
  { eapply same_heap_trans; [exact Hh1 | apply same_heap_add_events]. }
  rewrite (apply_key self h filters type kw Hty Hne). fold selected key.
  apply (wrap_cache_miss self cid key _ w w1 w2 w3); try done.
  by apply (cache_set_stable cid h selected type v (content_val out) w Hd).
Qed.

(** A call of [apply] in a world whose store holds content under the
    content identity of the hunk. *)
Lemma apply_served (self : FilterTool) (cid : nat) (h : Hunk)
  (filters : list Filter) (type : string) (kw : option Kwargs)
  (v c : PyVal) (w w' : World) :
  cache self = Some cid ->
  no_cache_read self = false ->
  type = "input" \/ type = "output" ->
  let selected :=
    List.filter (fun f => bool_decide (is_Some (getattr_transform f type)))
                filters in
  let key := KApply h selected type in
  selected <> [] ->
  data h w = (Ok v, w) ->
  same_heap w w' ->
  store_get (RApply (hash v) selected type) (store_of cid w') = c ->
  in_False_None c = false ->
  let w1 := add_event (CacheGet cid key) w' in
  apply self h filters type kw w' = (Ok (in_memory w1 c), bump w1).
Proof.
  intros Hc Hn Hty selected key Hne Hd Hh Hst Hin w1.
  rewrite (apply_key self h filters type kw Hty Hne). fold selected key.
  apply (wrap_cache_hit self cid key _ w' w1 c Hc Hn); [|exact Hin].
  unfold key, w1.
  rewrite (cache_get_stable cid h selected type v w Hd w' Hh).
  by rewrite Hst.
Qed.

(** C1: two hunks of any class whose [data()] gives the same value, again
    at every call, compare equal and have equal hashes; the keys [apply]
    builds for them with the same filters and transform kind are equal,
    and the entry a call of [apply] writes for one is what a call of
    [apply] for the other gets, so that the second call returns the stored
    content without calling a filter method.  Every hunk not made of a
    readable object is such a hunk once its [data()] has returned. *)
Theorem hunk_content_identity (self self' : FilterTool) (cid : nat)
  (h1 h2 : Hunk) (filters : list Filter) (type : string)
  (kw kw' : option Kwargs) (v : PyVal) (d out : Content) (w : World) :
  data h1 w = (Ok v, w) ->
  data h2 w = (Ok v, w) ->
  cache self = Some cid ->
  cache self' = Some cid ->
  no_cache_read self' = false ->
  type = "input" \/ type = "output" ->
  let selected :=
    List.filter (fun f => bool_decide (is_Some (getattr_transform f type)))
                filters in
  let key1 := KApply h1 selected type in
  let key2 := KApply h2 selected type in
  selected <> [] ->
  open_stream v w = (Ok d, w) ->
  chain_output type (kwargs_final self kw) selected d = Some out ->
  no_cache_read self = true
  \/ in_False_None (store_get (RApply (hash v) selected type) (store_of cid w))
     = true ->
  __eq__ h1 h2 w = (Ok true, w)
  /\ (exists hv, __hash__ h1 w = (Ok hv, w) /\ __hash__ h2 w = (Ok hv, w))
  /\ Key_eq key1 key2 w = (Ok true, w)
  /\ (exists wa wb,
        apply self h1 filters type kw w
        = (Ok (in_memory wa (content_val out)), bump wa)
        /\ In (CacheSet cid key1 (content_val out)) (log wa)
        /\ apply self' h2 filters type kw' (bump wa)
           = (Ok (in_memory wb (content_val out)), bump wb)
        /\ log wb = (log wa ++ [CacheGet cid key2])%list
        /\ stores wb = stores wa
        /\ filter_calls (log wb)
           = (filter_calls (log w) ++ calls type selected)%list)
  /\ (forall h u wx wy,
        data h wx = (Ok u, wy) ->
        (forall sid fs, kind h <> MemoryHunk (MStream sid) fs) ->
        data h wy = (Ok u, wy)).
Proof.
  intros H1 H2 Hc Hc' Hn' Hty selected key1 key2 Hne Ho Hchain Hcold.
  pose proof (hash_data _ _ _ _ H1) as Hh1.
  pose proof (hash_data _ _ _ _ H2) as Hh2.
  assert (Heq : __eq__ h1 h2 w = (Ok true, w)).
  { unfold __eq__, bind. rewrite Hh1, Hh2. unfold ret. by rewrite Z.eqb_refl. }
  split; [exact Heq|]. split; [by exists (hash v)|]. split; [|split].
  - unfold key1, key2, Key_eq, hunk_same_or_eq, bind.
    destruct (Nat.eqb (oid h1) (oid h2)).
    + unfold ret. by rewrite tuple_eq_refl, String.eqb_refl.
    + rewrite Heq. unfold ret. by rewrite tuple_eq_refl, String.eqb_refl.
  - pose proof (apply_first_call self cid h1 filters type kw v d out w
                  Hc Hty Hne H1 Ho Hchain Hcold) as Hfirst.
    cbv zeta in Hfirst. fold selected key1 in Hfirst.
    set (rk := RApply (hash v) selected type) in *.
    set (w1 := if no_cache_read self then w
               else add_event (CacheGet cid key1) w) in *.
    set (w2 := add_events (calls type selected) w1) in *.
    set (wa := set_store cid
                 (store_set rk (content_val out) (store_of cid w2))
                 (add_event (CacheSet cid key1 (content_val out)) w2)) in *.
    assert (Hh1' : same_heap w w1)
      by (unfold w1; destruct (no_cache_read self);
          [apply same_heap_refl | apply same_heap_add_event]).
    assert (Hha : same_heap w (bump wa)).
    { eapply same_heap_trans; [exact Hh1'|]. by repeat split. }
    assert (Hstored : store_get rk (store_of cid (bump wa)) = content_val out).
    { change (store_of cid (bump wa)) with (store_of cid wa). unfold wa.
      rewrite store_of_set_store. apply store_get_set. }
    pose proof (apply_served self' cid h2 filters type kw' v (content_val out)
                  w (bump wa) Hc' Hn' Hty Hne H2 Hha Hstored
                  (in_False_None_content out)) as Hsecond.
    cbv zeta in Hsecond. fold selected key2 in Hsecond.
    exists wa, (add_event (CacheGet cid key2) (bump wa)).
    split; [exact Hfirst|]. split; [|split; [exact Hsecond|split; [|split]]].
    + unfold wa. simpl. apply in_or_app. right. by left.
    + done.
    + done.
    + simpl. rewrite !filter_calls_app. simpl. rewrite !app_nil_r.
      destruct (filter_calls_of_calls type selected) as [Hcalls _].
      unfold calls. rewrite Hcalls. f_equal.
      unfold w1. by destruct (no_cache_read self); simpl;
        rewrite ?filter_calls_app, ?app_nil_r.
  - intros h u wx wy. apply data_settles.
Qed.


Lemma cache_get_func (cid : nat) (args : list PyVal) (fs : list Filter)
  (type : string) (ck : list PyVal) (w : World) :
  cache_get cid (KFunc args fs type ck) w
  = (Ok (store_get (RFunc args fs type ck) (store_of cid w)),
     add_event (CacheGet cid (KFunc args fs type ck)) w).
Proof. done. Qed.

(** X16: [apply_func] stores what its producer wrote: after a call that
    computed, a call with the same filters, kind, arguments and extra key
    returns that content without calling the producer, even with other
    keyword options and when the content is empty; [cache_key=None] and an
    empty [cache_key] are the same key. *)
Theorem apply_func_second_call_is_served (self self' : FilterTool)
  (cid : nat) (filters : list Filter) (f : Filter) (type : string)
  (args : list PyVal) (kw kw' : option Kwargs)
  (cache_key cache_key' : option (list PyVal))
  (method : list PyVal -> Kwargs -> Written) (p : string) (w : World) :
  cache self = Some cid ->
  cache self' = Some cid ->
  no_cache_read self' = false ->
  type = "open" \/ type = "concat" ->
  List.filter (fun f => bool_decide (is_Some (getattr_func f type))) filters
  = [f] ->
  getattr_func f type = Some method ->
  method args (kwargs_final self kw) = Wrote p ->
  default [] cache_key' = default [] cache_key ->
  no_cache_read self = true
  \/ in_False_None
       (store_get (RFunc args [f] type (default [] cache_key))
                  (store_of cid w)) = true ->
  exists wa wb,
    apply_func self filters type args kw cache_key w
    = (Ok (in_memory wa (VStr p)), bump wa)
    /\ apply_func self' filters type args kw' cache_key' (bump wa)
       = (Ok (in_memory wb (VStr p)), bump wb)
    /\ filter_calls (log (bump wb))
       = (filter_calls (log w) ++ [FilterCall f type])%list.
Proof.
  intros Hc Hc' Hn' Hty Hone Hm Hp Hck Hcold.
  set (key := KFunc args [f] type (default [] cache_key)).
  set (rk := RFunc args [f] type (default [] cache_key)).
  set (w1 := if no_cache_read self then w else add_event (CacheGet cid key) w).
  assert (Hmiss : cache_missed self cid key w w1).
  { unfold cache_missed, w1. destruct (no_cache_read self) eqn:Hn.
    - by left.
    - right. split; [done|]. destruct Hcold as [? | Hcold]; [done|].
      eexists. split; [reflexivity | exact Hcold]. }
  set (w2 := add_event (FilterCall f type) w1).
  set (w3 := set_store cid (store_set rk (VStr p) (store_of cid w2))
               (add_event (CacheSet cid key (VStr p)) w2)).
  assert (Hfirst : apply_func self filters type args kw cache_key w
                   = (Ok (in_memory w3 (VStr p)), bump w3)).
  { rewrite (apply_func_key self filters type args kw cache_key f Hty Hone).
    fold key.
    apply (wrap_cache_miss self cid key _ w w1 w2 w3 (Text p));
      [done | done | by apply (producer_run self f type args kw method) | done]. }
  exists w3, (add_event (CacheGet cid key) (bump w3)).
  split; [exact Hfirst|]. split.
  - rewrite (apply_func_key self' filters type args kw' cache_key' f Hty Hone).
    rewrite Hck. fold key.
    apply (wrap_cache_hit self' cid key); try done.
    unfold key at 1. rewrite cache_get_func. fold rk key.
    change (store_of cid (bump w3)) with (store_of cid w3). unfold w3.
    by rewrite store_of_set_store, store_get_set.
  - simpl. rewrite !filter_calls_app. simpl. rewrite !app_nil_r. f_equal.
    unfold w1. by destruct (no_cache_read self); simpl;
      rewrite ?filter_calls_app, ?app_nil_r.
Qed.

(** ** More on [merge_filters] and [merge] *)

Lemma contains_app (f : Filter) (l1 l2 : list Filter) :
  contains f (l1 ++ l2) = contains f l1 || contains f l2.
Proof. unfold contains. apply existsb_app. Qed.

Lemma contains_self (f : Filter) (l : list Filter) :
  In f l -> contains f l = true.
Proof.
  intros Hin. unfold contains. apply existsb_exists. exists f.
  split; [exact Hin|]. unfold filter_same_or_eq, same_filter.
  by rewrite Nat.eqb_refl.
Qed.

Lemma merge_filters_unfold (primary secondary : list Filter) :
  merge_filters primary secondary
  = (primary ++ appended_unique primary secondary)%list.
Proof.
  unfold merge_filters. destruct secondary as [|f rest].
  - simpl. by rewrite app_nil_r.
  - apply merge_loop_appended.
Qed.

Lemma appended_unique_covers (secondary : list Filter) :
  forall accumulated f,
    In f secondary ->
    contains f (accumulated ++ appended_unique accumulated secondary) = true.
Proof.
  induction secondary as [|g rest IH]; intros accumulated f Hin; [done|].
  simpl. destruct (contains g accumulated) eqn:Hg.
  - destruct Hin as [-> | Hin]; [|by apply IH].
    by rewrite contains_app, Hg.
  - change (g :: appended_unique (accumulated ++ [g]) rest)
      with ([g] ++ appended_unique (accumulated ++ [g]) rest)%list.
    rewrite app_assoc. destruct Hin as [-> | Hin]; [|by apply IH].
    rewrite contains_app. apply orb_true_iff. left.
    apply contains_self, in_or_app. right. by left.
Qed.

Lemma appended_unique_nothing (secondary accumulated : list Filter) :
  (forall f, In f secondary -> contains f accumulated = true) ->
  appended_unique accumulated secondary = [].
Proof.
  induction secondary as [|g rest IH]; intros Hall; [done|].
  simpl. rewrite (Hall g) by (by left).
  apply IH. intros f Hf. apply Hall. by right.
Qed.

Lemma appended_unique_length (secondary accumulated : list Filter) :
  (length (appended_unique accumulated secondary) <= length secondary)%nat.
Proof.
  revert accumulated.
  induction secondary as [|g rest IH]; intros accumulated; simpl; [lia|].
  destruct (contains g accumulated); simpl.
  - specialize (IH accumulated). lia.
  - specialize (IH (accumulated ++ [g])%list). lia.
Qed.

(** X17: the result of [merge_filters] holds, by identity or equality,
    every filter of the second list; merging the second list in once more
    changes nothing, merging a list with itself gives the list back, and
    the result is never shorter than the first list nor longer than both
    together. *)
Theorem merge_filters_covers (primary secondary : list Filter) :
  (forall f, In f secondary ->
             contains f (merge_filters primary secondary) = true)
  /\ merge_filters (merge_filters primary secondary) secondary
     = merge_filters primary secondary
  /\ merge_filters primary primary = primary
  /\ (length primary <= length (merge_filters primary secondary)
      <= length primary + length secondary)%nat.
Proof.
  split; [|split; [|split]].
  - intros f Hin. rewrite merge_filters_unfold.
    by apply appended_unique_covers.
  - rewrite (merge_filters_unfold (merge_filters primary secondary)).
    rewrite appended_unique_nothing; [by rewrite app_nil_r|].
    intros f Hin. rewrite merge_filters_unfold.
    by apply appended_unique_covers.
  - rewrite merge_filters_unfold.
    rewrite appended_unique_nothing; [by rewrite app_nil_r|].
    intros f Hin. by apply contains_self.
  - rewrite merge_filters_unfold, length_app.
    pose proof (appended_unique_length secondary primary). lia.
Qed.

Lemma merge_loop_app (l1 l2 : list Hunk) :
  forall tmp w,
    foldM merge_step (l1 ++ l2) tmp w
    = match foldM merge_step l1 tmp w with
      | (Ok tmp', w') => foldM merge_step l2 tmp' w'
      | (Raise e, w') => (Raise e, w')
      end.
Proof.
  induction l1 as [|h l1 IH]; intros tmp w; simpl; [done|].
  unfold bind. destruct (merge_step tmp h w) as [[tmp' | e] w']; [|done].
  apply IH.
Qed.

Lemma strs_app (l1 l2 : list PyVal) :
  strs (l1 ++ l2)
  = match strs l1, strs l2 with
    | Some a, Some b => Some (a ++ b)%list
    | _, _ => None
    end.
Proof.
  induction l1 as [|v l1 IH]; simpl.
  - by destruct (strs l2).
  - destruct v; try done. rewrite IH.
    destruct (strs l1), (strs l2); done.
Qed.

(** X18: [merge] stops at the first hunk whose [data()] raises or whose
    bytes cannot be decoded: it leaves by that exception and the hunks
    after it are not read.  A hunk whose [data()] is neither [str] nor
    [bytes] ([None], say) does not stop the loop: every hunk is read and
    then the join raises [TypeError].  In no case is a hunk created. *)
Theorem merge_failures (pre post : list Hunk) (h : Hunk)
  (separator : option string) (ts : list string) (w w1 : World) :
  reads pre w ts w1 ->
  (forall e w2,
     data h w1 = (Raise e, w2) ->
     merge (pre ++ h :: post) separator w = (Raise e, w2))
  /\ (forall b w2,
        data h w1 = (Ok (VBytes b), w2) -> decode b = None ->
        merge (pre ++ h :: post) separator w = (Raise UnicodeDecodeError, w2))
  /\ (forall v w2 ts' w3,
        data h w1 = (Ok v, w2) -> is_bytes v = false ->
        (forall s, v <> VStr s) ->
        reads post w2 ts' w3 ->
        merge (pre ++ h :: post) separator w = (Raise TypeError, w3)).
Proof.
  intros Hpre.
  pose proof (merge_loop_reads _ _ _ _ Hpre []) as Hloop. simpl in Hloop.
  split; [|split].
  - intros e w2 Hd. unfold merge. unfold bind at 1.
    rewrite merge_loop_app, Hloop. simpl. unfold bind at 1.
    unfold merge_step at 1. unfold bind at 1. by rewrite Hd.
  - intros b w2 Hd Hdec. unfold merge. unfold bind at 1.
    rewrite merge_loop_app, Hloop. simpl. unfold bind at 1.
    unfold merge_step at 1. unfold bind at 1. rewrite Hd.
    unfold bind at 1. rewrite Hdec. done.
  - intros v w2 ts' w3 Hd Hnb Hns Hpost. unfold merge. unfold bind at 1.
    rewrite merge_loop_app, Hloop. simpl. unfold bind at 1.
    unfold merge_step at 1. unfold bind at 1. rewrite Hd.
    assert (Hconv :
      (match v with
       | VBytes b =>
           match decode b with
           | Some s => ret (VStr s)
           | None => raise UnicodeDecodeError
           end
       | _ => ret v
       end) w2 = (Ok v, w2)) by (by destruct v).
    unfold bind at 1. rewrite Hconv. unfold ret at 1.
    rewrite (merge_loop_reads _ _ _ _ Hpost). unfold bind at 1, join.
    rewrite !strs_app, strs_VStr. simpl.
    destruct v; try done. by destruct (Hns s).
Qed.

(** X19: [merge] of no hunks returns a new hunk of empty content, and
    [merge] of one hunk a new hunk of that hunk's text, the separator
    appearing in neither. *)
Theorem merge_small (separator : option string) (w : World) :
  merge [] separator w = (Ok (in_memory w (VStr EmptyString)), bump w)
  /\ forall h v t w1,
       data h w = (Ok v, w1) -> text_of v = Some t ->
       merge [h] separator w = (Ok (in_memory w1 (VStr t)), bump w1).
Proof.
  split.
  - by destruct (merge_reads [] separator [] w w (reads_nil w)).
  - intros h v t w1 Hd Ht.
    assert (Hr : reads [h] w [t] w1)
      by (econstructor; [exact Hd | exact Ht | constructor]).
    by destruct (merge_reads [h] separator [t] w w1 Hr).
Qed.

End Webassets.

(** * Worked instances *)

Lemma hunk_content_identity_witness :
  data decode_ascii eq_by_name file_hunk css_world
  = (Ok (VStr "a{}"), css_world)
  /\ data decode_ascii eq_by_name memory_hunk css_world
     = (Ok (VStr "a{}"), css_world)
  /\ __eq__ hash_len decode_ascii eq_by_name file_hunk memory_hunk css_world
     = (Ok true, css_world)
  /\ Key_eq hash_len decode_ascii eq_by_name
            (KApply file_hunk [cssmin] "output")
            (KApply memory_hunk [cssmin] "output") css_world
     = (Ok true, css_world)
  /\ exists wa wb,
       apply hash_len decode_ascii eq_by_name cached_tool file_hunk
             [less; cssmin] "output" None css_world
       = (Ok (in_memory wa (VStr "[a{}]")), bump wa)
       /\ In (CacheSet 0 (KApply file_hunk [cssmin] "output") (VStr "[a{}]"))
             (log wa)
       /\ apply hash_len decode_ascii eq_by_name cached_tool memory_hunk
                [less; cssmin] "output" (Some {[ "level" := VStr "9" ]})
                (bump wa)
          = (Ok (in_memory wb (VStr "[a{}]")), bump wb)
       /\ log wb
          = (log wa ++ [CacheGet 0 (KApply memory_hunk [cssmin] "output")])%list
       /\ filter_calls (log wb) = [FilterCall cssmin "output"].
Proof.
  split; [reflexivity|]. split; [reflexivity|].
  assert (Hne : List.filter
                  (fun f => bool_decide (is_Some (getattr_transform f "output")))
                  [less; cssmin] <> []) by discriminate.
  destruct (hunk_content_identity hash_len decode_ascii eq_by_name
              cached_tool cached_tool 0 file_hunk memory_hunk [less; cssmin]
              "output" None (Some {[ "level" := VStr "9" ]}) (VStr "a{}")
              (Text "a{}") (Text "[a{}]") css_world
              eq_refl eq_refl eq_refl eq_refl eq_refl (or_intror eq_refl)
              Hne eq_refl eq_refl (or_intror eq_refl))
    as (Heq & _ & Hkey & (wa & wb & Ha & Hset & Hb & Hlog & _ & Hcalls) & _).
  split; [exact Heq|]. split; [exact Hkey|]. exists wa, wb.
  split; [exact Ha|]. split; [exact Hset|]. split; [exact Hb|].
  split; [exact Hlog | exact Hcalls].
Defined.

(** A [MemoryHunk] made of a readable object holding [abc], and one made
    of the text [abc]: the two compare equal, but the hashes taken after
    that differ, and the entry [apply] writes for the first is not found
    for the second.  The cache [get] of the first call uses the stream up,
    so that the filter runs on empty content and the result is stored
    under the identity of empty content; the second call runs the filter
    again. *)
Lemma stream_hunk_entry_not_served :
  fst ((same <- __eq__ hash_len decode_ascii eq_by_name stream_hunk
                       (text_hunk 1 "abc") ;;
        hash1 <- __hash__ hash_len decode_ascii eq_by_name stream_hunk ;;
        hash2 <- __hash__ hash_len decode_ascii eq_by_name
                          (text_hunk 1 "abc") ;;
        ret (same, hash1, hash2)) stream_world)
  = Ok (true, 0%Z, 3%Z)
  /\ fst ((first <- apply hash_len decode_ascii eq_by_name cached_tool
                          stream_hunk [cssmin] "output" None ;;
           second <- apply hash_len decode_ascii eq_by_name cached_tool
                           (text_hunk 1 "abc") [cssmin] "output" None ;;
           run <- gets (fun w => filter_calls (log w)) ;;
           ret (first, second, run)) stream_world)
     = Ok (text_hunk 5 "[]", text_hunk 6 "[abc]",
           [FilterCall cssmin "output"; FilterCall cssmin "output"]).
Proof. split; reflexivity. Qed.


Example select_filters_levels :
  select_filters cmp_levels [cssmin; rewrite_f] (VStr "merge") = [rewrite_f]
  /\ select_filters cmp_levels [cssmin; rewrite_f] (VBool false)
     = [cssmin; rewrite_f].
Proof. split; reflexivity. Qed.

Lemma apply_short_circuit_witness :
  ("output" = "input" \/ "output" = "output")
  /\ Forall (fun f => getattr_transform f "output" = None) [less; sass]
  /\ apply hash_len decode_ascii eq_by_name cached_tool file_hunk
       [less; sass] "output" None css_world
     = (Ok file_hunk, css_world).
Proof.
  assert (Hty : "output" = "input" \/ "output" = "output") by (right; reflexivity).
  assert (Hno : Forall (fun f => getattr_transform f "output" = None)
                       [less; sass]) by (repeat constructor).
  split; [right; reflexivity|]. split; [exact Hno|].
  exact (apply_short_circuit hash_len decode_ascii eq_by_name cached_tool
           file_hunk [less; sass] "output" None css_world Hty Hno).
Defined.

Lemma apply_func_errors_witness :
  apply_func hash_len decode_ascii eq_by_name cached_tool [cssmin] "open"
    [] None None css_world
  = (Raise NoFilters, css_world)
  /\ apply_func hash_len decode_ascii eq_by_name cached_tool
       [less; cssmin; sass] "open" [] None None css_world
     = (Raise (MoreThanOneFilterError
                 "These filters cannot be combined: less, sass" [less; sass]),
        css_world).
Proof.
  assert (Hty : "open" = "open" \/ "open" = "concat") by (left; reflexivity).
  split.
  - exact (proj1 (apply_func_errors hash_len decode_ascii eq_by_name
                    cached_tool [cssmin] "open" [] None None css_world Hty)
                 eq_refl).
  - apply (proj2 (apply_func_errors hash_len decode_ascii eq_by_name
                    cached_tool [less; cssmin; sass] "open" [] None None
                    css_world Hty)).
    simpl. lia.
Defined.

(** [merge] with the empty string as separator joins with a line break,
    not with the empty string. *)
Lemma merge_empty_separator :
  merge decode_ascii eq_by_name [text_hunk 1 "a"; text_hunk 2 "b"]
        (Some EmptyString) css_world
  = (Ok (text_hunk 5 ("a" +:+ newline +:+ "b")), bump css_world)
  /\ data decode_ascii eq_by_name (text_hunk 5 ("a" +:+ newline +:+ "b"))
          (bump css_world)
     = (Ok (VStr ("a" +:+ newline +:+ "b")), bump css_world)
  /\ VStr ("a" +:+ newline +:+ "b") <> VStr ("a" +:+ EmptyString +:+ "b").
Proof.
  split; [reflexivity|]. split; [reflexivity|].
  intros H. vm_compute in H. discriminate H.
Qed.

Lemma merge_joins_witness :
  reads decode_ascii eq_by_name [file_hunk; text_hunk 2 "b{}"] css_world
        ["a{}"; "b{}"] css_world
  /\ merge decode_ascii eq_by_name [file_hunk; text_hunk 2 "b{}"]
           (Some ";") css_world
     = (Ok (text_hunk 5 "a{};b{}"), bump css_world)
  /\ merge decode_ascii eq_by_name [file_hunk; text_hunk 2 "b{}"]
           None css_world
     = (Ok (text_hunk 5 ("a{}" +:+ newline +:+ "b{}")), bump css_world).
Proof.
  assert (Hr : reads decode_ascii eq_by_name [file_hunk; text_hunk 2 "b{}"]
                     css_world ["a{}"; "b{}"] css_world).
  { eapply reads_cons; [reflexivity | reflexivity |].
    eapply reads_cons; [reflexivity | reflexivity | apply reads_nil]. }
  assert (Hne : ";" <> EmptyString) by discriminate.
  pose proof (merge_joins decode_ascii eq_by_name _ _ _ _ Hr)
    as (Hs & Hnone & _).
  split; [exact Hr|]. split.
  - exact (proj1 (Hs ";" Hne)).
  - exact (proj1 Hnone).
Defined.

Lemma merge_assoc_witness :
  content decode_ascii eq_by_name file_hunk "a{}" css_world
  /\ content decode_ascii eq_by_name (text_hunk 2 "b{}") "b{}" css_world
  /\ content decode_ascii eq_by_name (text_hunk 3 "c{}") "c{}" css_world
  /\ merge decode_ascii eq_by_name
       [text_hunk 5 "a{};b{}"; text_hunk 3 "c{}"] (Some ";") (bump css_world)
     = (Ok (text_hunk 6 "a{};b{};c{}"), bump (bump css_world))
  /\ merge decode_ascii eq_by_name
       [file_hunk; text_hunk 5 "b{};c{}"] (Some ";") (bump css_world)
     = (Ok (text_hunk 6 "a{};b{};c{}"), bump (bump css_world))
  /\ merge decode_ascii eq_by_name
       [file_hunk; text_hunk 2 "b{}"; text_hunk 3 "c{}"] (Some ";") css_world
     = (Ok (text_hunk 5 "a{};b{};c{}"), bump css_world).
Proof.
  assert (C1 : content decode_ascii eq_by_name file_hunk "a{}" css_world)
    by (exists (VStr "a{}"); split; reflexivity).
  assert (C2 : content decode_ascii eq_by_name (text_hunk 2 "b{}") "b{}"
                       css_world)
    by (exists (VStr "b{}"); split; reflexivity).
  assert (C3 : content decode_ascii eq_by_name (text_hunk 3 "c{}") "c{}"
                       css_world)
    by (exists (VStr "c{}"); split; reflexivity).
  pose proof (merge_assoc decode_ascii eq_by_name (Some ";") _ _ _ _ _ _ _
                C1 C2 C3) as (_ & HL & _ & HR & HF & _).
  split; [exact C1|]. split; [exact C2|]. split; [exact C3|].
  split; [exact HL|]. split; [exact HR|]. exact HF.
Defined.

(** With a [MemoryHunk] made of a readable object holding [abc], the
    groupings differ.  Evaluated one after the other, as in the equation
    of the three groupings, the first uses the stream up and the second
    finds it empty; and started from the same state with that hunk in the
    first two places, the left grouping reads it twice in one [merge] and
    the right grouping once in each. *)
Lemma merge_regrouped_stream :
  fst ((m12 <- merge decode_ascii eq_by_name
                     [stream_hunk; text_hunk 1 "b"] (Some ";") ;;
        left <- merge decode_ascii eq_by_name
                      [m12; text_hunk 4 "c"] (Some ";") ;;
        l <- data decode_ascii eq_by_name left ;;
        m23 <- merge decode_ascii eq_by_name
                     [text_hunk 1 "b"; text_hunk 4 "c"] (Some ";") ;;
        right <- merge decode_ascii eq_by_name
                       [stream_hunk; m23] (Some ";") ;;
        r <- data decode_ascii eq_by_name right ;;
        ret (l, r)) stream_world)
  = Ok (VStr "abc;b;c", VStr ";b;c")
  /\ fst ((m12 <- merge decode_ascii eq_by_name
                        [stream_hunk; stream_hunk] (Some ";") ;;
           left <- merge decode_ascii eq_by_name
                         [m12; text_hunk 4 "c"] (Some ";") ;;
           data decode_ascii eq_by_name left) stream_world)
     = Ok (VStr "abc;;c")
  /\ fst ((m23 <- merge decode_ascii eq_by_name
                        [stream_hunk; text_hunk 4 "c"] (Some ";") ;;
           right <- merge decode_ascii eq_by_name
                          [stream_hunk; m23] (Some ";") ;;
           data decode_ascii eq_by_name right) stream_world)
     = Ok (VStr ";abc;c").
Proof. split; [reflexivity|]. split; reflexivity. Qed.

Lemma cache_read_compute_write_witness :
  cache cached_tool = Some 0%nat
  /\ (exists w3,
        apply hash_len decode_ascii eq_by_name cached_tool memory_hunk
              [less; cssmin] "output" None css_world
        = (Ok (in_memory w3 (VStr "[a{}]")), bump w3)
        /\ bump w3 = warm_world
        /\ filter_calls (log (bump w3)) = [FilterCall cssmin "output"]
        /\ In (CacheSet 0 css_key (VStr "[a{}]")) (log (bump w3)))
  /\ (exists w1,
        cache_get hash_len decode_ascii eq_by_name 0
                  (KApply file_hunk [cssmin] "output") warm_world
        = (Ok (VStr "[a{}]"), w1)
        /\ apply hash_len decode_ascii eq_by_name cached_tool file_hunk
                 [less; cssmin] "output" None warm_world
           = (Ok (in_memory w1 (VStr "[a{}]")), bump w1)
        /\ filter_calls (log (bump w1)) = filter_calls (log warm_world))
  /\ (exists w3,
        apply_func hash_len decode_ascii eq_by_name cached_tool
                   [banner; cssmin] "open" [VStr "a.less"] None None css_world
        = (Ok (in_memory w3 (VStr "// a.less")), bump w3)
        /\ bump w3 = banner_world
        /\ filter_calls (log (bump w3)) = [FilterCall banner "open"]
        /\ In (CacheSet 0 banner_key (VStr "// a.less")) (log (bump w3)))
  /\ (exists w1,
        cache_get hash_len decode_ascii eq_by_name 0 banner_key banner_world
        = (Ok (VStr "// a.less"), w1)
        /\ apply_func hash_len decode_ascii eq_by_name cached_tool
                      [banner; cssmin] "open" [VStr "a.less"] None None
                      banner_world
           = (Ok (in_memory w1 (VStr "// a.less")), bump w1)
        /\ filter_calls (log (bump w1)) = filter_calls (log banner_world)).
Proof.
  assert (Hty : "output" = "input" \/ "output" = "output")
    by (right; reflexivity).
  assert (Hne : List.filter
                  (fun f => bool_decide (is_Some (getattr_transform f "output")))
                  [less; cssmin] <> []) by discriminate.
  assert (Hfy : "open" = "open" \/ "open" = "concat") by (left; reflexivity).
  assert (Hone : List.filter
                   (fun f => bool_decide (is_Some (getattr_func f "open")))
                   [banner; cssmin] = [banner]) by reflexivity.
  pose proof (cache_read_compute_write hash_len decode_ascii eq_by_name
                cached_tool 0 eq_refl) as [Happly Hfunc].
  split; [reflexivity|]. split; [|split; [|split]].
  - destruct (Happly memory_hunk [less; cssmin] "output" None css_world
                Hty Hne) as [_ Hmiss].
    destruct (Hmiss cold_world (VStr "a{}") cold_world (Text "a{}")
                (Text "[a{}]"))
      as (w3 & _ & Hres & _ & Hcalls & Hset).
    + right. split; [reflexivity|]. exists VNone. split; reflexivity.
    + reflexivity.
    + reflexivity.
    + reflexivity.
    + exists w3. split; [exact Hres|]. split; [|split; [exact Hcalls | exact Hset]].
      apply (f_equal snd) in Hres. simpl in Hres. by rewrite <- Hres.
  - destruct (Happly file_hunk [less; cssmin] "output" None warm_world
                Hty Hne) as [Hhit _].
    assert (Hget :
      cache_get hash_len decode_ascii eq_by_name 0
        (KApply file_hunk [cssmin] "output") warm_world
      = (Ok (VStr "[a{}]"),
         add_event (CacheGet 0 (KApply file_hunk [cssmin] "output"))
                   warm_world)) by reflexivity.
    destruct (Hhit _ _ eq_refl Hget eq_refl) as (Hres & _ & Hcalls).
    eexists. split; [exact Hget|]. split; [exact Hres | exact Hcalls].
  - destruct (Hfunc [banner; cssmin] "open" [VStr "a.less"] None None banner
                css_world Hfy Hone) as [_ Hmiss].
    destruct (Hmiss (add_event (CacheGet 0 banner_key) css_world)
                (fun args _ =>
                   match args with
                   | [VStr p] => Wrote ("// " +:+ p)
                   | _ => Failed "TypeError"
                   end)
                "// a.less")
      as (w3 & _ & Hres & _ & Hcalls & Hset & _).
    + right. split; [reflexivity|]. exists VNone. split; reflexivity.
    + reflexivity.
    + reflexivity.
    + exists w3. split; [exact Hres|]. split; [|split; [exact Hcalls | exact Hset]].
      apply (f_equal snd) in Hres. simpl in Hres. by rewrite <- Hres.
  - destruct (Hfunc [banner; cssmin] "open" [VStr "a.less"] None None banner
                banner_world Hfy Hone) as [Hhit _].
    assert (Hget :
      cache_get hash_len decode_ascii eq_by_name 0 banner_key banner_world
      = (Ok (VStr "// a.less"),
         add_event (CacheGet 0 banner_key) banner_world)) by reflexivity.
    destruct (Hhit _ _ eq_refl Hget eq_refl) as (Hres & _ & Hcalls).
    eexists. split; [exact Hget|]. split; [exact Hres | exact Hcalls].
Defined.

Lemma no_cache_store_witness :
  cache plain_tool = None
  /\ apply hash_len decode_ascii eq_by_name plain_tool memory_hunk
           [less; cssmin] "output" None css_world
     = (Ok (text_hunk 5 "[a{}]"),
        bump (add_event (FilterCall cssmin "output") css_world))
  /\ apply_func hash_len decode_ascii eq_by_name plain_tool
                [less; cssmin] "open" [VStr "a.less"] None None css_world
     = (Ok (text_hunk 5 "less"),
        bump (add_event (FilterCall less "open") css_world))
  /\ tool_cache_accesses
       (log (snd (apply hash_len decode_ascii eq_by_name plain_tool
                    memory_hunk [less; cssmin] "output" None css_world)))
     = [].
Proof.
  pose proof (no_cache_store hash_len decode_ascii eq_by_name plain_tool
                eq_refl) as (Hacc & _ & Happly & Hfunc).
  split; [reflexivity|]. split; [|split].
  - refine (proj1 (Happly memory_hunk [less; cssmin] "output" None css_world
                     (Text "[a{}]")
                     (add_event (FilterCall cssmin "output") css_world)
                     _ _ eq_refl)).
    + right. reflexivity.
    + discriminate.
  - refine (proj1 (Hfunc [less; cssmin] "open" [VStr "a.less"] None None less
                     css_world (Text "less")
                     (add_event (FilterCall less "open") css_world)
                     _ eq_refl eq_refl)).
    left. reflexivity.
  - exact (Hacc memory_hunk [less; cssmin] "output" None css_world).
Defined.

(** Without a cache store, [apply_func] with two filters that implement
    [open] runs no producer and returns no hunk. *)
Lemma apply_func_two_producers :
  cache plain_tool = None
  /\ List.filter (fun f => bool_decide (is_Some (getattr_func f "open")))
                 [less; sass] = [less; sass]
  /\ apply_func hash_len decode_ascii eq_by_name plain_tool [less; sass]
                "open" [VStr "a.less"] None None css_world
     = (Raise (MoreThanOneFilterError
                 "These filters cannot be combined: less, sass" [less; sass]),
        css_world)
  /\ filter_calls (log css_world) = [].
Proof. repeat split. Qed.

Example url_hunk_conditional_fetch_example :
  UrlHunk_request eq_by_name "http://cdn/a.css" (Some css_env)
                  (url_world serve)
  = (Ok plain_request,
     add_event (CacheGet 0 (KUrl "headers" "http://cdn/a.css"))
               (url_world serve))
  /\ (exists w' w3,
        data decode_ascii eq_by_name (url_hunk 7) (url_world serve)
        = (Ok (VBytes "a{}"), w')
        /\ store_get eq_by_name (RUrl "headers" "http://cdn/a.css")
                     (store_of 0 w')
           = VPair (VStr "v1") VNone
        /\ store_get eq_by_name (RUrl "contents" "http://cdn/a.css")
                     (store_of 0 w')
           = VBytes "a{}"
        /\ data decode_ascii eq_by_name (url_hunk 8) w'
           = (Ok (VBytes "a{}"), w3)
        /\ body_reads (log w3) = body_reads (log w'))
  /\ data decode_ascii eq_by_name (url_hunk 7)
          (url_world (fun _ => HTTPErr 404))
     = (Raise (HTTPError 404),
        add_event (UrlOpen plain_request)
          (add_event (CacheGet 0 (KUrl "headers" "http://cdn/a.css"))
                     (url_world (fun _ => HTTPErr 404)))).
Proof.
  split; [reflexivity|]. split.
  - destruct (url_hunk_conditional_fetch decode_ascii eq_by_name 7
                "http://cdn/a.css" css_env 0 (url_world serve) plain_request
                _ eq_refl eq_refl eq_refl) as [Hfirst _].
    destruct (Hfirst "a{}" etag_only eq_refl)
      as (w' & Hd & Hh & Hc & _ & _ & _ & Hsecond).
    assert (Hw : w' = snd (data decode_ascii eq_by_name (url_hunk 7)
                             (url_world serve))).
    { change (data decode_ascii eq_by_name
                {| oid := 7; kind := UrlHunk "http://cdn/a.css" (Some css_env) |}
                (url_world serve))
        with (data decode_ascii eq_by_name (url_hunk 7) (url_world serve))
        in Hd.
      by rewrite Hd. }
    destruct (Hsecond 8%nat w') as (w3 & Hd2 & Hb).
    + rewrite Hw. reflexivity.
    + reflexivity.
    + rewrite Hw. reflexivity.
    + exists w', w3. split; [exact Hd|]. split; [exact Hh|].
      split; [exact Hc|]. split; [exact Hd2 | exact Hb].
  - destruct (url_hunk_conditional_fetch decode_ascii eq_by_name 7
                "http://cdn/a.css" css_env 0
                (url_world (fun _ => HTTPErr 404)) plain_request
                _ eq_refl eq_refl eq_refl) as (_ & Herr & _).
    apply (Herr 404%Z eq_refl). discriminate.
Defined.

(** [GZip.output] under [apply]: the result is a hunk with no content. *)
Example apply_gzip :
  apply hash_len decode_ascii eq_by_name plain_tool memory_hunk
        [GZip 20 VNone] "output" None css_world
  = (Ok (text_hunk 5 EmptyString),
     bump (add_event (FilterCall (GZip 20 VNone) "output") css_world)).
Proof. reflexivity. Qed.

Lemma url_hunk_first_fetch_py3_witness :
  UrlHunk_request eq_by_name "http://cdn/a.css" (Some css_env)
                  (url_world serve_py3)
  = (Ok plain_request,
     add_event (CacheGet 0 (KUrl "headers" "http://cdn/a.css"))
               (url_world serve_py3))
  /\ net (url_world serve_py3) plain_request = py3_response "a{}"
  /\ fst (data decode_ascii eq_by_name (url_hunk 7) (url_world serve_py3))
     = Raise AttributeError
  /\ store_of 0
       (snd (data decode_ascii eq_by_name (url_hunk 7) (url_world serve_py3)))
     = []
  /\ log (snd (data decode_ascii eq_by_name (url_hunk 7)
                    (url_world serve_py3)))
     = [CacheGet 0 (KUrl "headers" "http://cdn/a.css"); UrlOpen plain_request;
        BodyRead "http://cdn/a.css"].
Proof.
  split; [reflexivity|]. split; [reflexivity|].
  destruct (url_hunk_first_fetch_py3 decode_ascii eq_by_name 7
              "http://cdn/a.css" css_env 0 (url_world serve_py3)
              plain_request _ "a{}" eq_refl eq_refl eq_refl eq_refl)
    as (Hd & Hst & Hlog & _).
  change (data decode_ascii eq_by_name
            {| oid := 7; kind := UrlHunk "http://cdn/a.css" (Some css_env) |}
            (url_world serve_py3))
    with (data decode_ascii eq_by_name (url_hunk 7) (url_world serve_py3))
    in Hd.
  rewrite Hd. simpl. split; [reflexivity|]. split.
  - unfold store_of. simpl. reflexivity.
  - reflexivity.
Defined.

Lemma url_hunk_memoized_witness :
  data decode_ascii eq_by_name (bare_url_hunk 7) (url_world serve_py3)
  = (Ok (VBytes "a{}"), fetched_world)
  /\ data decode_ascii eq_by_name (bare_url_hunk 7) fetched_world
     = (Ok (VBytes "a{}"), fetched_world).
Proof.
  split; [reflexivity|].
  apply (proj2 (url_hunk_memoized decode_ascii eq_by_name 7
                  "http://cdn/a.css" None (VBytes "a{}")
                  (url_world serve_py3) fetched_world eq_refl)).
  reflexivity.
Defined.

Lemma url_hunk_not_modified_witness :
  UrlHunk_request eq_by_name "http://cdn/a.css" (Some css_env)
                  cached_url_world
  = (Ok plain_request,
     add_event (CacheGet 0 (KUrl "headers" "http://cdn/a.css"))
               cached_url_world)
  /\ net cached_url_world plain_request = HTTPErr 304
  /\ exists w',
       data decode_ascii eq_by_name (url_hunk 7) cached_url_world
       = (Ok (VBytes "a{}"), w')
       /\ url_data w' !! 7%nat = Some (VBytes "a{}")
       /\ body_reads (log w') = body_reads (log cached_url_world).
Proof.
  split; [reflexivity|]. split; [reflexivity|].
  destruct (url_hunk_not_modified decode_ascii eq_by_name 7
              "http://cdn/a.css" css_env 0 cached_url_world plain_request
              _ eq_refl eq_refl eq_refl eq_refl)
    as (w' & Hd & Hm & _ & Hb & _).
  exists w'. split; [exact Hd|]. split; [exact Hm | exact Hb].
Defined.

Lemma url_hunk_error_not_memoized_witness :
  data decode_ascii eq_by_name (url_hunk 7) (url_world (fun _ => HTTPErr 404))
  = (Raise (HTTPError 404),
     add_event (UrlOpen plain_request)
       (add_event (CacheGet 0 (KUrl "headers" "http://cdn/a.css"))
                  (url_world (fun _ => HTTPErr 404))))
  /\ data decode_ascii eq_by_name (bare_url_hunk 7) (url_world (fun _ => URLErr))
     = (Raise URLError,
        add_event (UrlOpen plain_request) (url_world (fun _ => URLErr))).
Proof.
  split.
  - refine (proj1 (url_hunk_error_not_memoized decode_ascii eq_by_name 7
                     "http://cdn/a.css" (Some css_env)
                     (url_world (fun _ => HTTPErr 404)) plain_request _
                     (HTTPError 404) eq_refl eq_refl _)).
    left. exists 404%Z. split; [reflexivity|]. split; [discriminate|reflexivity].
  - refine (proj1 (url_hunk_error_not_memoized decode_ascii eq_by_name 7
                     "http://cdn/a.css" None
                     (url_world (fun _ => URLErr)) plain_request _
                     URLError eq_refl eq_refl _)).
    right. split; reflexivity.
Defined.

Lemma url_hunk_without_cache_witness :
  data decode_ascii eq_by_name (bare_url_hunk 7) (url_world serve_py3)
  = (Ok (VBytes "a{}"), fetched_world)
  /\ data decode_ascii eq_by_name (bare_url_hunk 7)
          (url_world (fun _ => HTTPErr 304))
     = (Raise AttributeError,
        add_event (UrlOpen plain_request) (url_world (fun _ => HTTPErr 304))).
Proof.
  split.
  - exact (proj1 (url_hunk_without_cache decode_ascii eq_by_name 7
                    "http://cdn/a.css" None (url_world serve_py3)
                    eq_refl eq_refl) "a{}" None eq_refl).
  - exact (proj1 (proj2 (url_hunk_without_cache decode_ascii eq_by_name 7
                           "http://cdn/a.css" None
                           (url_world (fun _ => HTTPErr 304))
                           eq_refl eq_refl)) eq_refl).
Defined.

Lemma save_then_read_witness :
  data decode_ascii eq_by_name memory_hunk
       (set_file "out.css" EmptyString css_world)
  = (Ok (VStr "a{}"), set_file "out.css" EmptyString css_world)
  /\ decode_ascii (encode_ascii "a{}") = Some "a{}"
  /\ save decode_ascii eq_by_name encode_ascii memory_hunk "out.css" css_world
     = (Ok tt, set_file "out.css" "a{}"
                 (set_file "out.css" EmptyString css_world))
  /\ data decode_ascii eq_by_name {| oid := 9; kind := FileHunk "out.css" |}
          (set_file "out.css" "a{}" (set_file "out.css" EmptyString css_world))
     = (Ok (VStr "a{}"),
        set_file "out.css" "a{}" (set_file "out.css" EmptyString css_world)).
Proof.
  split; [reflexivity|]. split; [reflexivity|].
  destruct (save_then_read decode_ascii eq_by_name encode_ascii memory_hunk
              "out.css" "a{}" css_world _ 9 eq_refl eq_refl)
    as (Hs & _ & Hd).
  split; [exact Hs | exact Hd].
Defined.

Lemma save_failure_empties_file_witness :
  data decode_ascii eq_by_name bytes_hunk
       (set_file "a.css" EmptyString css_world)
  = (Ok (VBytes "a{}"), set_file "a.css" EmptyString css_world)
  /\ files css_world !! "a.css" = Some "a{}"
  /\ files (set_file "a.css" EmptyString css_world) !! "a.css"
     = Some EmptyString
  /\ save decode_ascii eq_by_name encode_ascii bytes_hunk "a.css" css_world
     = (Raise AttributeError, set_file "a.css" EmptyString css_world).
Proof.
  split; [reflexivity|]. split; [reflexivity|].
  refine (save_failure_empties_file decode_ascii eq_by_name encode_ascii
            bytes_hunk "a.css" css_world (Ok (VBytes "a{}")) _ eq_refl _).
  intros s. discriminate.
Defined.

Lemma save_onto_own_file_witness :
  decode_ascii EmptyString = Some EmptyString
  /\ encode_ascii EmptyString = EmptyString
  /\ files css_world !! "a.css" = Some "a{}"
  /\ exists w2,
       save decode_ascii eq_by_name encode_ascii file_hunk "a.css" css_world
       = (Ok tt, w2)
       /\ files w2 !! "a.css" = Some EmptyString.
Proof.
  split; [reflexivity|]. split; [reflexivity|]. split; [reflexivity|].
  destruct (save_onto_own_file decode_ascii eq_by_name encode_ascii 0 "a.css"
              css_world eq_refl eq_refl) as (w2 & Hs & Hf & _).
  exists w2. split; [exact Hs | exact Hf].
Defined.

Lemma stream_hunk_read_once_witness :
  streams stream_world !! 3%nat = Some (Text "abc")
  /\ data decode_ascii eq_by_name stream_hunk stream_world
     = (Ok (VStr "abc"), set_stream 3 (Text EmptyString) stream_world)
  /\ data decode_ascii eq_by_name stream_hunk
          (set_stream 3 (Text EmptyString) stream_world)
     = (Ok (VStr EmptyString), set_stream 3 (Text EmptyString) stream_world)
  /\ __eq__ hash_len decode_ascii eq_by_name stream_hunk stream_hunk
            stream_world
     = (Ok false, set_stream 3 (Text EmptyString) stream_world).
Proof.
  split; [reflexivity|].
  exact (stream_hunk_read_once hash_len decode_ascii eq_by_name 2 3 []
           (Text "abc") stream_world eq_refl).
Defined.

Lemma hunk_eq_equivalence_witness :
  data decode_ascii eq_by_name file_hunk css_world
  = (Ok (VStr "a{}"), css_world)
  /\ data decode_ascii eq_by_name memory_hunk css_world
     = (Ok (VStr "a{}"), css_world)
  /\ data decode_ascii eq_by_name (text_hunk 2 "b{}") css_world
     = (Ok (VStr "b{}"), css_world)
  /\ __eq__ hash_len decode_ascii eq_by_name file_hunk file_hunk css_world
     = (Ok true, css_world)
  /\ __eq__ hash_len decode_ascii eq_by_name file_hunk memory_hunk css_world
     = __eq__ hash_len decode_ascii eq_by_name memory_hunk file_hunk css_world
  /\ __eq__ hash_len decode_ascii eq_by_name
            {| oid := 8; kind := FileHunk "missing.css" |} memory_hunk
            css_world
     = (Raise (FileNotFoundError "missing.css"), css_world)
  /\ __eq__ hash_len decode_ascii eq_by_name file_hunk
            {| oid := 8; kind := FileHunk "missing.css" |} css_world
     = (Raise (FileNotFoundError "missing.css"), css_world).
Proof.
  split; [reflexivity|]. split; [reflexivity|]. split; [reflexivity|].
  destruct (hunk_eq_equivalence hash_len decode_ascii eq_by_name file_hunk
              memory_hunk (text_hunk 2 "b{}") (VStr "a{}") (VStr "a{}")
              (VStr "b{}") css_world eq_refl eq_refl eq_refl)
    as (Hrefl & Hsym & _ & _ & Herr).
  destruct (Herr {| oid := 8; kind := FileHunk "missing.css" |}
              (FileNotFoundError "missing.css") css_world eq_refl)
    as [Hleft Hright].
  split; [exact Hrefl|]. split; [exact Hsym|].
  split; [exact (Hleft memory_hunk) | exact Hright].
Defined.

Lemma apply_composes_witness :
  data decode_ascii eq_by_name memory_hunk css_world
  = (Ok (VStr "a{}"), css_world)
  /\ chain_output "output" (kwargs_final plain_tool None) [cssmin; rewrite_f]
                  (Text "a{}")
     = Some (Text "[[a{}]]")
  /\ apply hash_len decode_ascii eq_by_name plain_tool memory_hunk
           [less; cssmin; rewrite_f] "output" None css_world
     = (Ok (in_memory
              (add_events (calls "output" [cssmin; rewrite_f]) css_world)
              (VStr "[[a{}]]")),
        bump (add_events (calls "output" [cssmin; rewrite_f]) css_world)).
Proof.
  split; [reflexivity|]. split; [reflexivity|].
  refine (proj1 (proj2 (apply_composes hash_len decode_ascii eq_by_name
                          plain_tool memory_hunk [less; cssmin; rewrite_f]
                          "output" None (VStr "a{}") (Text "a{}")
                          (Text "[[a{}]]") css_world css_world
                          (or_intror eq_refl) _ eq_refl eq_refl eq_refl))
                eq_refl).
  discriminate.
Defined.

Lemma apply_keeps_stream_kind_witness :
  data decode_ascii eq_by_name bytes_hunk css_world
  = (Ok (VBytes "a{}"), css_world)
  /\ apply_func_body decode_ascii eq_by_name plain_tool bytes_hunk [cssmin]
                     "output" None css_world
     = (Ok (Bytes "[a{}]"), add_events (calls "output" [cssmin]) css_world)
  /\ is_bytes (content_val (Bytes "[a{}]")) = is_bytes (VBytes "a{}").
Proof.
  split; [reflexivity|]. split; [reflexivity|].
  exact (apply_keeps_stream_kind decode_ascii eq_by_name plain_tool bytes_hunk
           [cssmin] "output" None (VBytes "a{}") (Bytes "[a{}]") css_world
           css_world (add_events (calls "output" [cssmin]) css_world)
           eq_refl eq_refl).
Defined.

Lemma failed_chain_stops_witness :
  getattr_transform broken "output" = Some (fun _ _ => Failed "boom")
  /\ chain_output "output" (kwargs_final plain_tool None) [cssmin]
                  (Text "a{}")
     = Some (Text "[a{}]")
  /\ apply hash_len decode_ascii eq_by_name plain_tool memory_hunk
           [cssmin; less; broken; rewrite_f] "output" None css_world
     = (Raise (FilterFailure "boom"),
        add_events (calls "output" [cssmin; broken]) css_world).
Proof.
  split; [reflexivity|]. split; [reflexivity|].
  refine (proj1 (failed_chain_stops hash_len decode_ascii eq_by_name
                   plain_tool memory_hunk [cssmin; less; broken; rewrite_f]
                   [cssmin] [rewrite_f] broken "output" None (VStr "a{}")
                   (Text "a{}") (Text "[a{}]") (fun _ _ => Failed "boom")
                   "boom" css_world css_world css_world
                   (or_intror eq_refl) eq_refl (or_introl (conj eq_refl eq_refl))
                   eq_refl eq_refl eq_refl eq_refl eq_refl)).
Defined.

Lemma gzip_output_is_empty_witness :
  cache plain_tool = None
  /\ chain_output "output" (kwargs_final plain_tool None) [cssmin]
                  (Text "a{}")
     = Some (Text "[a{}]")
  /\ apply hash_len decode_ascii eq_by_name plain_tool memory_hunk
           [cssmin; GZip 20 VNone] "output" None css_world
     = (Ok (in_memory
              (add_events (calls "output" [cssmin; GZip 20 VNone]) css_world)
              (VStr EmptyString)),
        bump (add_events (calls "output" [cssmin; GZip 20 VNone]) css_world)).
Proof.
  split; [reflexivity|]. split; [reflexivity|].
  exact (gzip_output_is_empty hash_len decode_ascii eq_by_name plain_tool
           memory_hunk [cssmin; GZip 20 VNone] [cssmin] 20 VNone None
           (VStr "a{}") (Text "a{}") (Text "[a{}]") css_world css_world
           eq_refl eq_refl eq_refl eq_refl eq_refl).
Defined.


Lemma apply_func_second_call_is_served_witness :
  getattr_func less "open" = Some (fun _ _ => Wrote "less")
  /\ exists wa wb,
       apply_func hash_len decode_ascii eq_by_name cached_tool [less; cssmin]
                  "open" [VStr "a.less"] None None css_world
       = (Ok (in_memory wa (VStr "less")), bump wa)
       /\ apply_func hash_len decode_ascii eq_by_name cached_tool
                     [less; cssmin] "open" [VStr "a.less"]
                     (Some {[ "level" := VStr "9" ]}) (Some []) (bump wa)
          = (Ok (in_memory wb (VStr "less")), bump wb)
       /\ filter_calls (log (bump wb)) = [FilterCall less "open"].
Proof.
  split; [reflexivity|].
  exact (apply_func_second_call_is_served hash_len decode_ascii eq_by_name
           cached_tool cached_tool 0 [less; cssmin] less "open"
           [VStr "a.less"] None (Some {[ "level" := VStr "9" ]}) None
           (Some []) (fun _ _ => Wrote "less") "less" css_world
           eq_refl eq_refl eq_refl (or_introl eq_refl) eq_refl eq_refl
           eq_refl eq_refl (or_intror eq_refl)).
Defined.

Lemma merge_failures_witness :
  reads decode_ascii eq_by_name [file_hunk] css_world ["a{}"] css_world
  /\ merge decode_ascii eq_by_name
           [file_hunk; {| oid := 8; kind := FileHunk "missing.css" |};
            text_hunk 2 "b{}"] None css_world
     = (Raise (FileNotFoundError "missing.css"), css_world)
  /\ merge decode_ascii eq_by_name [file_hunk; none_hunk; text_hunk 2 "b{}"]
           None css_world
     = (Raise TypeError, css_world).
Proof.
  assert (Hr : reads decode_ascii eq_by_name [file_hunk] css_world ["a{}"]
                     css_world)
    by (eapply reads_cons; [reflexivity | reflexivity | apply reads_nil]).
  split; [exact Hr|]. split.
  - exact (proj1 (merge_failures decode_ascii eq_by_name [file_hunk]
                    [text_hunk 2 "b{}"]
                    {| oid := 8; kind := FileHunk "missing.css" |} None
                    ["a{}"] css_world css_world Hr)
                 (FileNotFoundError "missing.css") css_world eq_refl).
  - refine (proj2 (proj2 (merge_failures decode_ascii eq_by_name [file_hunk]
                            [text_hunk 2 "b{}"] none_hunk None ["a{}"]
                            css_world css_world Hr))
                  VNone css_world ["b{}"] css_world eq_refl eq_refl _ _).
    + intros s. discriminate.
    + eapply reads_cons; [reflexivity | reflexivity | apply reads_nil].
Defined.
